(** * macro-indicators: the fetch / normalise / merge / write pipeline of [main.py]

    A shallow embedding of [src/main.py].  The three functions of the script,
    [get_data], [save_data] and [main], are translated statement by
    statement.  What the script takes from its libraries is modelled as
    follows.

    - [requests]: the network is a function from the request URL to the
      outcome of [requests.get]; a response carries its status code and the
      outcome of [response.json()].
    - [pandas]: a [DataFrame] is its list of column labels and its list of
      rows, a row being an index label and one labelled cell per column.
      Duplicate index labels and duplicate column labels are allowed, as in
      pandas.  [pd.to_numeric], [pd.to_datetime] and [DataFrame.to_csv] are
      parameters of the development (section variables): nothing is assumed
      about which strings they accept.  So is [pd.DataFrame] on anything
      but a list of records whose fields are scalars, the shape of the
      [observations] array; on such a list it is translated.
    - [os]: the file system is a finite map from the paths of the regular
      files to their contents; directories are not listed.
    - [concurrent.futures]: [as_completed] yields the submitted fetches in
      some order; that order is an argument of [main]. *)

From Stdlib Require Import ZArith Lia Ascii String.
From stdpp Require Import base option list strings gmap sorting pretty.

Local Open Scope string_scope.
Local Open Scope list_scope.
#[local] Set Warnings "-clear-no-such-hyp".

(** ** Exceptions and results *)

(** The exception classes the script can meet.  [RequestException cls]
    stands for [requests.RequestException] and its subclasses
    ([ConnectionError], [Timeout], [HTTPError], [JSONDecodeError]...),
    [cls] being the name of the class; [OSError cls] stands for the
    subclasses of [OSError] that [os] raises. *)
Inductive exn : Type :=
| RequestException (cls : string)
| KeyError (key : string)
| TypeError (msg : string)
| ValueError (msg : string)
| InvalidIndexError (msg : string)
| OSError (cls : string).

Inductive result (A : Type) : Type :=
| Return (a : A)
| Raise (e : exn).
Arguments Return {A} a.
Arguments Raise {A} e.

Global Instance result_ret : MRet result := @Return.
Global Instance result_bind : MBind result := λ A B f m,
  match m with
  | Return a => f a
  | Raise e => Raise e
  end.

(** [try: body  except cls as e: handler]. *)
Definition try_except {A} (body : result A) (catches : exn → bool)
    (handler : exn → result A) : result A :=
  match body with
  | Return a => Return a
  | Raise e => if catches e then handler e else Raise e
  end.

(** [except requests.RequestException] *)
Definition is_RequestException (e : exn) : bool :=
  match e with
  | RequestException _ => true
  | _ => false
  end.

(** [except Exception]: every class above derives from [Exception]. *)
Definition is_Exception (e : exn) : bool := true.

(** ** JSON values and HTTP responses *)

(** The value [response.json()] returns.  A JSON number keeps its literal;
    an object is the Python [dict], in insertion order (its keys are
    distinct). *)
#[warnings="-register-all"]
Inductive json : Type :=
| JNull
| JBool (b : bool)
| JNum (lit : string)
| JStr (s : string)
| JArr (items : list json)
| JObj (fields : list (string * json)).

Record Response : Type := mkResponse {
  status_code : Z;
  (** the outcome of [response.json()] *)
  json_body : result json
}.

(** [response.raise_for_status()]: an [HTTPError] for 4xx and 5xx. *)
Definition raise_for_status (r : Response) : result unit :=
  if bool_decide (400 ≤ status_code r < 600)%Z
  then Raise (RequestException "HTTPError")
  else Return tt.

(** [d[key]] on an association list in insertion order. *)
Fixpoint dict_get {V} (key : string) (d : list (string * V)) : option V :=
  match d with
  | [] => None
  | (k, v) :: d' => if bool_decide (k = key) then Some v else dict_get key d'
  end.

(** [data[key]] on the decoded body: a [KeyError] when a dict lacks the key,
    a [TypeError] when the value is not a dict. *)
Definition json_getitem (data : json) (key : string) : result json :=
  match data with
  | JObj fields =>
      match dict_get key fields with
      | Some v => Return v
      | None => Raise (KeyError key)
      end
  | _ => Raise (TypeError "indices must be integers or the object is not subscriptable")
  end.

(** ** Data frames *)

(** A Python scalar held in a cell. *)
Inductive pyval : Type :=
| PyNone
| PyBool (b : bool)
| PyNum (lit : string)
| PyStr (s : string).

Global Instance pyval_eq_dec : EqDecision pyval.
Proof. solve_decision. Defined.

(** A cell: [None] is NaN, the missing value. *)
Definition cell : Type := option pyval.
Definition NaN : cell := None.

(** A row: its index label and its cells, each under its column label. *)
Abbreviation row L := (L * list (string * cell))%type.

Record DataFrame (L : Type) : Type := mkDataFrame {
  columns : list string;
  rows : list (row L)
}.
Arguments mkDataFrame {L} columns rows.
Arguments columns {L} d.
Arguments rows {L} d.

(** [df.index] *)
Definition index {L} (df : DataFrame L) : list L := fmap fst (rows df).

(** [pd.DataFrame()] *)
Definition empty_DataFrame {L} : DataFrame L := mkDataFrame [] [].

(** [df.empty]: some axis has length 0. *)
Definition empty {L} (df : DataFrame L) : bool :=
  match columns df, rows df with
  | [], _ => true
  | _, [] => true
  | _, _ => false
  end.

(** The cell of a row under a column label (NaN when the label is absent). *)
Definition cell_at {L} (col : string) (r : row L) : cell :=
  default NaN (dict_get col (snd r)).

(** [s.startswith(prefix)] *)
Fixpoint startswith (s prefix : string) : bool :=
  match prefix with
  | EmptyString => true
  | String c prefix' =>
      match s with
      | EmptyString => false
      | String d s' => if bool_decide (c = d) then startswith s' prefix' else false
      end
  end.

(** Values in order of first appearance ([Index.unique]). *)
Fixpoint unique {A} `{EqDecision A} (l : list A) : list A :=
  match l with
  | [] => []
  | x :: l' => x :: filter (λ y, y ≠ x) (unique l')
  end.

(** Keep the columns whose label satisfies [keep], in every row. *)
Definition select_columns_by {L} (keep : string → bool) (df : DataFrame L) : DataFrame L :=
  mkDataFrame
    (filter (λ c, keep c = true) (columns df))
    (fmap (λ r : row L, (fst r, filter (λ lc : string * cell, keep (fst lc) = true) (snd r))) (rows df)).

(** [df.loc[:, ~df.columns.str.startswith('realtime')]] *)
Definition drop_realtime {L} (df : DataFrame L) : DataFrame L :=
  select_columns_by (λ c, negb (startswith c "realtime")) df.

(** [.rename(columns={old: new})] *)
Definition rename_label (old new c : string) : string :=
  if bool_decide (c = old) then new else c.

Definition rename_columns {L} (old new : string) (df : DataFrame L) : DataFrame L :=
  mkDataFrame
    (fmap (rename_label old new) (columns df))
    (fmap (λ r : row L, (fst r, fmap (λ lc : string * cell, (rename_label old new (fst lc), snd lc)) (snd r)))
         (rows df)).

(** How many columns carry a label. *)
Definition count_label (col : string) (cols : list string) : nat :=
  length (filter (λ c, c = col) cols).

(** [.set_index(key)]: the cells of column [key] become the index labels and
    the column is dropped.  A [KeyError] when there is no such column; when
    several columns carry the label, [frame[key]] is two-dimensional and the
    index cannot be built (a pandas that does build one raises a [KeyError]
    at the next statement of [get_data]).  Several columns carry the label
    only when [get_data] is given [date] for display name. *)
Definition set_index {L} (key : string) (df : DataFrame L) : result (DataFrame cell) :=
  match count_label key (columns df) with
  | 0 => Raise (KeyError key)
  | 1 =>
      Return (mkDataFrame
        (filter (λ c, c ≠ key) (columns df))
        (fmap (λ r : row L, (cell_at key r, filter (λ lc : string * cell, fst lc ≠ key) (snd r)))
             (rows df)))
  | _ => Raise (ValueError "Index data must be 1-dimensional")
  end.

(** [df[col]] as used by [pd.to_numeric(df[col], ...)]: the cells of the one
    column labelled [col].  A [KeyError] when there is none; with several,
    [df[col]] is a frame, which [pd.to_numeric] rejects. *)
Definition getitem_column {L} (col : string) (df : DataFrame L) : result (list cell) :=
  match count_label col (columns df) with
  | 0 => Raise (KeyError col)
  | 1 => Return (fmap (cell_at col) (rows df))
  | _ => Raise (TypeError "arg must be a list, tuple, 1-d array, or Series")
  end.

(** [xs[mask]] with a boolean mask aligned by position. *)
Fixpoint boolean_mask {A} (xs : list A) (mask : list bool) : list A :=
  match xs, mask with
  | x :: xs', b :: mask' => if b then x :: boolean_mask xs' mask' else boolean_mask xs' mask'
  | _, _ => []
  end.

(** [df[mask]] *)
Definition filter_rows {L} (mask : list bool) (df : DataFrame L) : DataFrame L :=
  mkDataFrame (columns df) (boolean_mask (rows df) mask).

(** A record of the [observations] array whose fields are all scalars. *)
Abbreviation record := (list (string * pyval)).

Definition scalar_of_json (j : json) : option pyval :=
  match j with
  | JNull => Some PyNone
  | JBool b => Some (PyBool b)
  | JNum lit => Some (PyNum lit)
  | JStr s => Some (PyStr s)
  | JArr _ | JObj _ => None
  end.

Definition record_of_json (j : json) : option record :=
  match j with
  | JObj fields => mapM (λ kv : string * json, pair (fst kv) <$> scalar_of_json (snd kv)) fields
  | _ => None
  end.

Definition records_of_json (j : json) : option (list record) :=
  match j with
  | JArr items => mapM record_of_json items
  | _ => None
  end.

(** [r.keys()] *)
Definition record_keys (r : record) : list string := fmap fst r.

(** [pd.DataFrame(records)] for a list of dicts: the columns are the keys in
    order of first appearance, the index is [0..n-1], a key a record lacks
    gives NaN. *)
Definition DataFrame_of_records (recs : list record) : DataFrame nat :=
  let cols := unique (concat (fmap record_keys recs)) in
  mkDataFrame cols
    (imap (λ i (r : record), (i, fmap (λ c, (c, dict_get c r)) cols)) recs).

(** ** Configuration *)

Definition API_KEY : string := "YOUR_API_KEY_HERE".
Definition OUTPUT_DIR : string := "economic_indicators_data".
Definition SERIES_IDS : list (string * string) :=
  [ ("UNRATE", "unemployment Ratio");
    ("SAHMREALTIME", "Real-time Sahm Rule Recession Indicator");
    ("ICSA", "Initial Claims");
    ("USCONS", "All Employees, Construction");
    ("JTSJOL", "Job Openings: Total Nonfarm");
    ("DTWEXBGS", "Dollar index");
    ("DCOILWTICO", "WTI Crude Oil");
    ("CES4348400001", "All Employees, Truck Transportation");
    ("M2SL", "M2");
    ("M2V", "M2V");
    ("GDPC1", "Real GDP");
    ("AMTMNO", "PMI - New Orders");
    ("BAMLH0A0HYM2EY", "High-Yield");
    ("DGS10", "10 year treasury");
    ("DGS2", "2 year treasury");
    ("FEDFUNDS", "Federal Funds Effective Rate");
    ("MORTGAGE30US", "30-Year Fixed Rate Mortgage Average in the United States");
    ("CPIAUCSL", "Consumer Price Index for All Urban Consumers: All Items in U.S. City Average");
    ("COMREPUSQ159N", "Commercial Real Estate Prices");
    ("HPIPONM226S", "House Price Index (Purchase only)");
    ("SP500", "s&p 500");
    ("NASDAQCOM", "NASDAQ Composite Index");
    ("DJCA", "Dow Jones Composite Average") ].

(** The configured display names, in configured order. *)
Definition series_names : list string := fmap snd SERIES_IDS.

(** ** Timestamps *)

(** A label of the [DatetimeIndex]: nanoseconds since the epoch, or [NaT]. *)
Inductive Timestamp : Type :=
| NaT
| Stamp (ns : Z).

Global Instance Timestamp_eq_dec : EqDecision Timestamp.
Proof. solve_decision. Defined.

(** The order [sort_index] uses: ascending, [NaT] last. *)
Definition ts_leb (a b : Timestamp) : bool :=
  match a, b with
  | _, NaT => true
  | NaT, Stamp _ => false
  | Stamp x, Stamp y => bool_decide (x ≤ y)%Z
  end.

Definition ts_le (a b : Timestamp) : Prop := ts_leb a b = true.

(** ** The file system *)

(** [os.path.join(a, b)] on POSIX paths. *)
Definition ends_with_slash (a : string) : bool :=
  match String.rev a with
  | String c _ => bool_decide (c = "/"%char)
  | EmptyString => false
  end.

Definition path_join (a b : string) : string :=
  if startswith b "/" then b
  else if bool_decide (a = "") || ends_with_slash a then a +:+ b
  else a +:+ "/" +:+ b.

(** The request URL [get_data] builds (its f-string). *)
Definition observations_url (series_id api_key : string) : string :=
  "https://api.stlouisfed.org/fred/series/observations?series_id=" +:+ series_id
  +:+ "&api_key=" +:+ api_key +:+ "&file_type=json".

(** Lines written through [logging]. *)
Inductive log_line : Type :=
| LogInfo (msg : string)
| LogError (msg : string) (e : exn).

(** The pipeline, over what it takes from its libraries and its
    environment. *)
Section Pipeline.

(** [pd.to_numeric(v, errors='coerce')] is a number (not NaN). *)
Variable is_number : pyval → bool.
(** [pd.to_datetime] on an index: it settles on one format for the whole
    index (pandas guesses it from the first label that is not missing) and
    reads every label with it.  [to_datetime idx l] is what the label [l]
    is read as when it stands in the index [idx]; [None] when it is
    rejected there. *)
Variable to_datetime : list cell → cell → option Timestamp.
(** The text [DataFrame.to_csv] writes. *)
Variable to_csv : DataFrame Timestamp → string.
(** [pd.DataFrame(x)] when [x] is not a list of records of scalars. *)
Variable DataFrame_of_other : json → result (DataFrame nat).
(** The outcome of [requests.get(url)]. *)
Variable requests_get : string → result Response.

(** [pd.DataFrame(data["observations"])] *)
Definition pd_DataFrame (obs : json) : result (DataFrame nat) :=
  match records_of_json obs with
  | Some recs => Return (DataFrame_of_records recs)
  | None => DataFrame_of_other obs
  end.

(** [pd.to_numeric(col, errors='coerce').notna()] *)
Definition numeric_notna (c : cell) : bool :=
  match c with
  | Some v => is_number v
  | None => false
  end.

(** The line [get_data] logs in its handler is not kept. *)
Definition get_data (series_id series_name api_key : string) : result (DataFrame cell) :=
  let url := observations_url series_id api_key in
  try_except
    (response ← requests_get url;
     _ ← raise_for_status response;
     data ← json_body response;
     observations ← json_getitem data "observations";
     df ← pd_DataFrame observations;
     df ← set_index "date" (rename_columns "value" series_name df);
     col ← getitem_column series_name df;
     let df := filter_rows (fmap numeric_notna col) df in
     let df := drop_realtime df in
     Return df)
    is_RequestException
    (λ e, Return empty_DataFrame).

(** [save_data]: [os.makedirs(OUTPUT_DIR, exist_ok=True)] raises
    [FileExistsError] when a regular file stands at [OUTPUT_DIR], and
    otherwise leaves the directory in place; [to_csv] then writes,
    replacing any file at that path. *)
Definition makedirs_exist_ok (path : string) (fs : gmap string string) : result unit :=
  if bool_decide (is_Some (fs !! path)) then Raise (OSError "FileExistsError")
  else Return tt.

Definition save_data (df : DataFrame Timestamp) (filename : string)
    (fs : gmap string string) : result (gmap string string) :=
  _ ← makedirs_exist_ok OUTPUT_DIR fs;
  let file_path := path_join OUTPUT_DIR filename in
  Return (<[file_path := to_csv df]> fs).

(** *** The dispatcher loop of [main] *)

Record Collected : Type := mkCollected {
  dfs : list (DataFrame cell);
  successful_series : list string;
  log : list log_line
}.

(** One iteration of [for future in as_completed(future_to_series)]. *)
Definition collect_one (st : Collected) (series : string * string) : Collected :=
  let '(series_id, series_name) := series in
  match
    try_except
      (df ← get_data series_id series_name API_KEY;
       if negb (empty df)
       then Return (mkCollected (dfs st ++ [df]) (successful_series st ++ [series_name])
                      (log st ++ [LogInfo series_name]))
       else Return st)
      is_Exception
      (λ e, Return (mkCollected (dfs st) (successful_series st)
                      (log st ++ [LogError series_name e])))
  with
  | Return st' => st'
  | Raise _ => st
  end.

Definition collect (completed : list (string * string)) : Collected :=
  foldl collect_one (mkCollected [] [] []) completed.

(** *** The merger *)

(** The cells a frame contributes to the joined row of a label: its row
    with that label, or NaN under each of its columns. *)
Definition nan_cells {L} (df : DataFrame L) : list (string * cell) :=
  fmap (λ c, (c, NaN)) (columns df).

Definition cells_of_label {L} `{EqDecision L} (lbl : L) (df : DataFrame L) : list (string * cell) :=
  match list_find (λ r : row L, fst r = lbl) (rows df) with
  | Some (_, r) => snd r
  | None => nan_cells df
  end.

Definition cells_at_position {L} (i : nat) (df : DataFrame L) : list (string * cell) :=
  match rows df !! i with
  | Some r => snd r
  | None => nan_cells df
  end.

(** The frames side by side, row by row. *)
Definition join_by_position {L} (df0 : DataFrame L) (frames : list (DataFrame L)) : DataFrame L :=
  mkDataFrame (concat (fmap columns frames))
    (imap (λ i (r : row L), (fst r, concat (fmap (cells_at_position i) frames))) (rows df0)).

(** The frames reindexed on the union of their labels, in order of first
    appearance. *)
Definition join_by_label {L} `{EqDecision L} (frames : list (DataFrame L)) : DataFrame L :=
  mkDataFrame (concat (fmap columns frames))
    (fmap (λ lbl, (lbl, concat (fmap (cells_of_label lbl) frames)))
          (unique (concat (fmap index frames)))).

(** [pd.concat(dfs, axis=1, join='outer')].  With no frame it raises.
    When all indexes are equal the frames are put side by side as they
    are.  Otherwise the index is the union of the indexes and every frame
    is reindexed on it, which pandas refuses for a frame with a duplicated
    label. *)
Definition concat_axis1_outer {L} `{EqDecision L} (frames : list (DataFrame L)) : result (DataFrame L) :=
  match frames with
  | [] => Raise (ValueError "No objects to concatenate")
  | df0 :: others =>
      if bool_decide (Forall (λ df, index df = index df0) others) then
        Return (join_by_position df0 frames)
      else if bool_decide (Forall (λ df, NoDup (index df)) frames) then
        Return (join_by_label frames)
      else Raise (InvalidIndexError "Reindexing only valid with uniquely valued Index objects")
  end.

(** [df.index = pd.to_datetime(df.index)] *)
Definition set_datetime_index (df : DataFrame cell) : result (DataFrame Timestamp) :=
  match mapM (λ r : row cell, (λ t, (t, snd r)) <$> to_datetime (index df) (fst r)) (rows df) with
  | Some rows' => Return (mkDataFrame (columns df) rows')
  | None => Raise (ValueError "Unknown datetime string format")
  end.

(** [df.sort_index(inplace=True)]: ascending, rows with equal labels keep
    their order. *)
Fixpoint insert_row (r : row Timestamp) (l : list (row Timestamp)) : list (row Timestamp) :=
  match l with
  | [] => [r]
  | r' :: l' => if ts_leb (fst r) (fst r') then r :: l else r' :: insert_row r l'
  end.

Fixpoint sort_rows (l : list (row Timestamp)) : list (row Timestamp) :=
  match l with
  | [] => []
  | r :: l' => insert_row r (sort_rows l')
  end.

Definition sort_index (df : DataFrame Timestamp) : DataFrame Timestamp :=
  mkDataFrame (columns df) (sort_rows (rows df)).

(** [df[names]] with a list of labels: for each name in turn, every column
    that carries it; a [KeyError] when a name labels no column. *)
Definition select_labels (names cols : list string) : list string :=
  flat_map (λ n, filter (λ c, c = n) cols) names.

Definition select_cells (names : list string) (cells : list (string * cell))
    : list (string * cell) :=
  flat_map (λ n, filter (λ lc : string * cell, fst lc = n) cells) names.

Definition getitem_columns {L} (names : list string) (df : DataFrame L) : result (DataFrame L) :=
  if bool_decide (Forall (λ n, n ∈ columns df) names) then
    Return (mkDataFrame
      (select_labels names (columns df))
      (fmap (λ r : row L, (fst r, select_cells names (snd r))) (rows df)))
  else Raise (KeyError "not in index").

(** Lines 108 to 115 of [main]. *)
Definition merge (frames : list (DataFrame cell)) : result (DataFrame Timestamp) :=
  merged_df ← concat_axis1_outer frames;
  merged_df ← set_datetime_index merged_df;
  let merged_df := drop_realtime merged_df in
  let merged_df := sort_index merged_df in
  let columns_order := filter (λ col, col ∈ columns merged_df) series_names in
  getitem_columns columns_order merged_df.

(** *** Cleanup and [main] *)

(** One iteration of the loop that deletes the per-series files. *)
Definition remove_series_file (fs : gmap string string) (series_name : string) : gmap string string :=
  let file_path := path_join OUTPUT_DIR (series_name +:+ ".csv") in
  if bool_decide (is_Some (fs !! file_path)) then delete file_path fs else fs.

Definition cleanup (successful : list string) (fs : gmap string string) : gmap string string :=
  foldl remove_series_file fs successful.

(** [main], for a completion order of the submitted fetches.  It raises
    what the merge or [save_data] raises, before anything is written, so
    that a raising run leaves the files as they were. *)
Definition main (completed : list (string * string)) (fs : gmap string string)
    : result (gmap string string) :=
  let st := collect completed in
  merged_df ← merge (dfs st);
  fs ← save_data merged_df "economic_indicators.csv" fs;
  Return (cleanup (successful_series st) fs).

(** *** What a fetch contributes to the run *)

(** The table the dispatcher records for a series, if any: the fetch
    returned and its table is not empty. *)
Definition fetched (series : string * string) : option (DataFrame cell) :=
  match get_data (fst series) (snd series) API_KEY with
  | Return df => if empty df then None else Some df
  | Raise _ => None
  end.

(** The lines the dispatcher logs for a series. *)
Definition fetch_log (series : string * string) : list log_line :=
  match get_data (fst series) (snd series) API_KEY with
  | Return df => if empty df then [] else [LogInfo (snd series)]
  | Raise e => [LogError (snd series) e]
  end.

End Pipeline.

(** ** Instances of the library parameters

    Concrete readings of the pandas functions, for the examples below: they
    agree with pandas on the inputs used there (plain decimal literals, ISO
    dates and dates written with the year last, frames of strings). *)

Definition is_digit (c : ascii) : bool :=
  bool_decide (48 ≤ nat_of_ascii c ≤ 57)%nat.

Fixpoint all_digits (s : string) : bool :=
  match s with
  | EmptyString => true
  | String c s' => is_digit c && all_digits s'
  end.

(** Digits, then optionally a point and digits, with a digit somewhere. *)
Fixpoint unsigned_decimal (s : string) (seen_digit : bool) : bool :=
  match s with
  | EmptyString => seen_digit
  | String c s' =>
      if is_digit c then unsigned_decimal s' true
      else if bool_decide (c = "."%char)
           then all_digits s' && (seen_digit || negb (bool_decide (s' = "")))
           else false
  end.

Definition decimal_literal (s : string) : bool :=
  match s with
  | String c s' =>
      if bool_decide (c = "-"%char) || bool_decide (c = "+"%char)
      then unsigned_decimal s' false
      else unsigned_decimal s false
  | EmptyString => false
  end.

Definition is_number_decimal (v : pyval) : bool :=
  match v with
  | PyStr s => decimal_literal s
  | PyNum _ => true
  | PyBool _ => true
  | PyNone => false
  end.

Definition digit_value (c : ascii) : Z := Z.of_nat (nat_of_ascii c) - 48.

(** Days since 1970-01-01 of a civil date. *)
Definition days_from_civil (y m d : Z) : Z :=
  let y' := (if bool_decide (m ≤ 2) then y - 1 else y)%Z in
  let era := (y' `div` 400)%Z in
  let yoe := (y' - era * 400)%Z in
  let doy := ((153 * (if bool_decide (2 < m) then m - 3 else m + 9) + 2) `div` 5 + d - 1)%Z in
  let doe := (yoe * 365 + yoe `div` 4 - yoe `div` 100 + doy)%Z in
  (era * 146097 + doe - 719468)%Z.

Definition ns_per_day : Z := 86400000000000.

(** [YYYY-MM-DD]. *)
Definition parse_iso_date (s : string) : option Timestamp :=
  match s with
  | String y1 (String y2 (String y3 (String y4 (String h1
      (String m1 (String m2 (String h2 (String d1 (String d2 EmptyString))))))))) =>
      if forallb is_digit [y1; y2; y3; y4; m1; m2; d1; d2]
         && bool_decide (h1 = "-"%char) && bool_decide (h2 = "-"%char)
      then
        let y := (digit_value y1 * 1000 + digit_value y2 * 100 + digit_value y3 * 10 + digit_value y4)%Z in
        let m := (digit_value m1 * 10 + digit_value m2)%Z in
        let d := (digit_value d1 * 10 + digit_value d2)%Z in
        if bool_decide (1 ≤ m ≤ 12)%Z && bool_decide (1 ≤ d ≤ 31)%Z
        then Some (Stamp (days_from_civil y m d * ns_per_day))
        else None
      else None
  | _ => None
  end.

(** The reading of a label under the ISO format. *)
Definition read_iso_date (c : cell) : option Timestamp :=
  match c with
  | None => Some NaT
  | Some PyNone => Some NaT
  | Some (PyStr s) => parse_iso_date s
  | Some _ => None
  end.

(** [pd.to_datetime] on indexes of ISO dates: the one format this instance
    knows is the ISO format, so whatever the index every label is read
    under it, and a label of another form is rejected. *)
Definition to_datetime_iso (idx : list cell) (c : cell) : option Timestamp :=
  read_iso_date c.

(** [pd.to_datetime] on indexes whose dates are written with the year
    last.  The format is guessed from the first label that is not missing:
    [AA-BB-YYYY] is taken day first when [AA] cannot be a month, and month
    first otherwise; every label is then read under that format. *)
Inductive date_format : Type :=
| YearFirst
| DayFirst
| MonthFirst.

(** The three numbers of [AA-BB-YYYY]. *)
Definition parse_year_last (s : string) : option (Z * Z * Z) :=
  match s with
  | String a1 (String a2 (String h1 (String b1 (String b2 (String h2
      (String y1 (String y2 (String y3 (String y4 EmptyString))))))))) =>
      if forallb is_digit [a1; a2; b1; b2; y1; y2; y3; y4]
         && bool_decide (h1 = "-"%char) && bool_decide (h2 = "-"%char)
      then Some ((digit_value a1 * 10 + digit_value a2)%Z,
                 (digit_value b1 * 10 + digit_value b2)%Z,
                 (digit_value y1 * 1000 + digit_value y2 * 100
                  + digit_value y3 * 10 + digit_value y4)%Z)
      else None
  | _ => None
  end.

Definition guess_format (s : string) : option date_format :=
  if parse_iso_date s is Some _ then Some YearFirst
  else match parse_year_last s with
       | Some (a, _, _) => if bool_decide (12 < a)%Z then Some DayFirst else Some MonthFirst
       | None => None
       end.

Fixpoint first_string (idx : list cell) : option string :=
  match idx with
  | [] => None
  | Some (PyStr s) :: _ => Some s
  | _ :: idx' => first_string idx'
  end.

Definition civil_date (y m d : Z) : option Timestamp :=
  if bool_decide (1 ≤ m ≤ 12)%Z && bool_decide (1 ≤ d ≤ 31)%Z
  then Some (Stamp (days_from_civil y m d * ns_per_day))
  else None.

Definition read_under (f : date_format) (s : string) : option Timestamp :=
  match f with
  | YearFirst => parse_iso_date s
  | DayFirst => '(d, m, y) ← parse_year_last s; civil_date y m d
  | MonthFirst => '(m, d, y) ← parse_year_last s; civil_date y m d
  end.

Definition to_datetime_guess (idx : list cell) (c : cell) : option Timestamp :=
  match c with
  | None | Some PyNone => Some NaT
  | Some (PyStr s) => f ← first_string idx ≫= guess_format; read_under f s
  | Some _ => None
  end.

(** The civil date of a day number, as [(y, m, d)]. *)
Definition civil_from_days (days : Z) : Z * Z * Z :=
  let z := (days + 719468)%Z in
  let era := (z `div` 146097)%Z in
  let doe := (z - era * 146097)%Z in
  let yoe := ((doe - doe `div` 1460 + doe `div` 36524 - doe `div` 146096) `div` 365)%Z in
  let doy := (doe - (365 * yoe + yoe `div` 4 - yoe `div` 100))%Z in
  let mp := ((5 * doy + 2) `div` 153)%Z in
  let d := (doy - (153 * mp + 2) `div` 5 + 1)%Z in
  let m := (if bool_decide (mp < 10) then mp + 3 else mp - 9)%Z in
  let y := (yoe + era * 400 + (if bool_decide (m ≤ 2) then 1 else 0))%Z in
  (y, m, d).

Definition two_digits (n : Z) : string :=
  if bool_decide (n < 10)%Z then "0" +:+ pretty n else pretty n.

Definition render_timestamp (t : Timestamp) : string :=
  match t with
  | NaT => ""
  | Stamp ns =>
      let '(y, m, d) := civil_from_days (ns `div` ns_per_day) in
      pretty y +:+ "-" +:+ two_digits m +:+ "-" +:+ two_digits d
  end.

Definition quote_char : ascii := "034"%char.

Fixpoint needs_quoting (s : string) : bool :=
  match s with
  | EmptyString => false
  | String c s' =>
      bool_decide (c = ","%char) || bool_decide (c = quote_char)
      || bool_decide (c = "010"%char) || needs_quoting s'
  end.

Fixpoint double_quotes (s : string) : string :=
  match s with
  | EmptyString => EmptyString
  | String c s' =>
      if bool_decide (c = quote_char) then String c (String c (double_quotes s'))
      else String c (double_quotes s')
  end.

Definition csv_field (s : string) : string :=
  if needs_quoting s
  then String quote_char (double_quotes s) +:+ String quote_char EmptyString
  else s.

Definition render_cell (c : cell) : string :=
  match c with
  | None | Some PyNone => ""
  | Some (PyBool true) => "True"
  | Some (PyBool false) => "False"
  | Some (PyNum lit) => lit
  | Some (PyStr s) => csv_field s
  end.

Fixpoint join_fields (fields : list string) : string :=
  match fields with
  | [] => ""
  | [f] => f
  | f :: fields' => f +:+ "," +:+ join_fields fields'
  end.

Definition csv_line (fields : list string) : string :=
  join_fields fields +:+ String "010"%char EmptyString.

(** A header line with the index name and the column labels, then a line
    per row. *)
Definition to_csv_text (df : DataFrame Timestamp) : string :=
  csv_line ("date" :: fmap csv_field (columns df))
  +:+ String.concat ""
        (fmap (λ r : row Timestamp, csv_line (render_timestamp (fst r) :: fmap (λ lc, render_cell (snd lc)) (snd r)))
             (rows df)).

Definition DataFrame_of_other_refused (j : json) : result (DataFrame nat) :=
  Raise (ValueError "DataFrame constructor not properly called!").

(** An observation record as FRED sends it. *)
Definition fred_observation (date value : string) : json :=
  JObj [("realtime_start", JStr "2024-06-01"); ("realtime_end", JStr "2024-06-01");
        ("date", JStr date); ("value", JStr value)].

(** A successful response carrying the given observations. *)
Definition fred_response (observations : list json) : result Response :=
  Return (mkResponse 200 (Return (JObj [("count", JNum "0"); ("observations", JArr observations)]))).

(** ** Vocabulary of the statements *)

(** The per-series file the cleanup loop looks for, and the merged file. *)
Definition series_file (series_name : string) : string :=
  path_join OUTPUT_DIR (series_name +:+ ".csv").
Definition output_file : string := path_join OUTPUT_DIR "economic_indicators.csv".

(** No column label starts with [realtime], in the header or in a row. *)
Definition no_realtime {L} (df : DataFrame L) : Prop :=
  Forall (λ c, startswith c "realtime" = false) (columns df) ∧
  Forall (λ r : row L, Forall (λ lc : string * cell, startswith (fst lc) "realtime" = false) (snd r))
         (rows df).

(** A property of the value a computation returns, when it returns. *)
Definition on_return {A} (P : A → Prop) (r : result A) : Prop :=
  match r with
  | Return a => P a
  | Raise _ => True
  end.

(** The request fails with a [requests.RequestException]: in transport, by
    an error status, or while decoding the body. *)
Inductive request_fails (out : result Response) : Prop :=
| transport_failure e :
    out = Raise e → is_RequestException e = true → request_fails out
| http_error_status r :
    out = Return r → (400 ≤ status_code r < 600)%Z → request_fails out
| malformed_body r e :
    out = Return r → ¬ (400 ≤ status_code r < 600)%Z →
    json_body r = Raise e → is_RequestException e = true → request_fails out.

(** The response to the request for a series is well formed: the request
    succeeds and the body decodes to an object whose [observations] field is
    a non-empty array of records of scalars, each with a [date] and a
    [value]; the display name that replaces [value] is not itself a field
    of the records and does not begin with the reserved prefix. *)
Record well_formed_response (series_name : string) (out : result Response)
    (recs : list record) : Prop := mk_well_formed_response {
  wf_body : ∃ r fields obs,
    out = Return r ∧ ¬ (400 ≤ status_code r < 600)%Z ∧
    json_body r = Return (JObj fields) ∧
    dict_get "observations" fields = Some obs ∧
    records_of_json obs = Some recs;
  wf_nonempty : recs ≠ [];
  wf_date_value :
    Forall (λ r : record, is_Some (dict_get "date" r) ∧ is_Some (dict_get "value" r)) recs;
  wf_name_fresh : Forall (λ r : record, dict_get series_name r = None) recs;
  wf_name_not_reserved : startswith series_name "realtime" = false
}.

(** The records have the fields of a FRED observation: [date], [value] and
    fields with the reserved prefix. *)
Definition fred_fields (recs : list record) : Prop :=
  Forall (λ r : record,
            Forall (λ k, k = "date" ∨ k = "value" ∨ startswith k "realtime" = true) (record_keys r))
         recs.

(** Every row of the frame has exactly the cells its header announces. *)
Definition consistent {L} (df : DataFrame L) : Prop :=
  Forall (λ r : row L, (snd r).*1 = columns df) (rows df).

(** A Series Table of the data model: one value column, named by the
    display name of the series, and no date twice. *)
Record series_table (series_name : string) (df : DataFrame cell) : Prop := mk_series_table {
  st_columns : columns df = [series_name];
  st_consistent : consistent df;
  st_unique_dates : NoDup (index df)
}.

(** The date labels of a collection of tables. *)
Definition date_labels (frames : list (DataFrame cell)) : list cell :=
  concat (index <$> frames).

(** Distinct labels are never read as the same date. *)
Definition distinct_dates (read : cell → option Timestamp) (labels : list cell) : Prop :=
  ∀ a b t, a ∈ labels → b ∈ labels →
    read a = Some t → read b = Some t → a = b.

(** Rows compared by their date. *)
Definition row_le (a b : row Timestamp) : Prop := ts_le (fst a) (fst b).

(** The date a label is read as ([NaT] when it is not read at all). *)
Definition timestamp_of (read : cell → option Timestamp) (lbl : cell) : Timestamp :=
  default NaT (read lbl).

(** The index [pd.concat] gives the joined table: the common index when all
    the tables have the same one, and otherwise the labels of the tables in
    order of first appearance. *)
Definition joined_index (frames : list (DataFrame cell)) : list cell :=
  match frames with
  | [] => []
  | df0 :: others =>
      if bool_decide (Forall (λ df, index df = index df0) others) then index df0
      else unique (date_labels frames)
  end.

(** The labels are read in the same way in whatever order they stand in
    the index: the format [pd.to_datetime] settles on does not depend on
    which label comes first. *)
Definition order_blind (to_datetime : list cell → cell → option Timestamp)
    (labels : list cell) : Prop :=
  ∀ idx idx' l, idx ≡ₚ idx' → (∀ l', l' ∈ idx → l' ∈ labels) → l ∈ idx →
    to_datetime idx l = to_datetime idx' l.

(** No listed file lies under one of the paths: none of them is a
    directory. *)
Definition no_file_under (paths : list string) (fs : gmap string string) : Prop :=
  map_Forall (λ (q : string) (_ : string),
                Forall (λ p, startswith q (p +:+ "/") = false) paths) fs.

(** The labels are strings, as the dates of FRED are. *)
Definition string_labels (labels : list cell) : Prop :=
  Forall (λ l : cell, ∃ s, l = Some (PyStr s)) labels.

(** What [merge] makes of the joined columns and of the cells of a joined
    row: the reserved columns go, then the configured names present are
    taken in configured order. *)
Definition without_realtime (cols : list string) : list string :=
  filter (λ c, negb (startswith c "realtime") = true) cols.

Definition columns_order (cols : list string) : list string :=
  filter (λ col, col ∈ without_realtime cols) series_names.

Definition merged_cells (cols : list string) (cells : list (string * cell))
    : list (string * cell) :=
  select_cells (columns_order cols)
    (filter (λ lc : string * cell, negb (startswith (fst lc) "realtime") = true) cells).

(** The rows of a joined table as [merge] leaves them, before the dates are
    read and sorted. *)
Definition tidy_rows (j : DataFrame cell) : list (row cell) :=
  (λ r : row cell, (fst r, merged_cells (columns j) (snd r))) <$> rows j.

(** ** Inputs of the examples *)

(** The record [fred_observation] decodes to. *)
Definition fred_record (date value : string) : record :=
  [("realtime_start", PyStr "2024-06-01"); ("realtime_end", PyStr "2024-06-01");
   ("date", PyStr date); ("value", PyStr value)].

(** No request gets through. *)
Definition network_down (url : string) : result Response :=
  Raise (RequestException "ConnectionError").

(** Every request is answered with status 500. *)
Definition network_500 (url : string) : result Response :=
  Return (mkResponse 500 (Return JNull)).

(** The unemployment rate is answered with status 200 and a body that has
    no [observations] field; nothing else gets through. *)
Definition network_no_observations (url : string) : result Response :=
  if bool_decide (url = observations_url "UNRATE" API_KEY)
  then Return (mkResponse 200 (Return (JObj [("error_message", JStr "Bad Request.")])))
  else Raise (RequestException "ConnectionError").

(** Only the unemployment rate is answered: three observations, one of them
    without a number. *)
Definition unrate_dates_values : list (string * string) :=
  [("2020-01-01", "3.5"); ("2020-02-01", "."); ("2020-03-01", "4.4")].

Definition network_unrate (url : string) : result Response :=
  if bool_decide (url = observations_url "UNRATE" API_KEY)
  then fred_response ((λ dv, fred_observation (fst dv) (snd dv)) <$> unrate_dates_values)
  else Raise (RequestException "ConnectionError").

Definition unrate_records : list record :=
  (λ dv, fred_record (fst dv) (snd dv)) <$> unrate_dates_values.

(** The unemployment rate is answered with the same date twice. *)
Definition network_repeated_date (url : string) : result Response :=
  if bool_decide (url = observations_url "UNRATE" API_KEY)
  then fred_response [fred_observation "2020-01-01" "3.5"; fred_observation "2020-01-01" "3.6"]
  else Raise (RequestException "ConnectionError").

(** Two series are answered, on different dates. *)
Definition network_two_series (url : string) : result Response :=
  if bool_decide (url = observations_url "UNRATE" API_KEY)
  then fred_response [fred_observation "2020-01-01" "3.5"; fred_observation "2020-01-02" "3.6"]
  else if bool_decide (url = observations_url "M2SL" API_KEY)
  then fred_response [fred_observation "2020-01-03" "15000"; fred_observation "2020-01-04" "15100"]
  else Raise (RequestException "ConnectionError").

(** Two series are answered on the same date, and the observation of the
    unemployment rate carries one more field, named as the other series is
    displayed. *)
Definition network_shared_label (url : string) : result Response :=
  if bool_decide (url = observations_url "UNRATE" API_KEY)
  then fred_response
         [JObj [("date", JStr "2020-01-01"); ("value", JStr "3.5"); ("M2", JStr "7")]]
  else if bool_decide (url = observations_url "M2SL" API_KEY)
  then fred_response [fred_observation "2020-01-01" "15000"]
  else Raise (RequestException "ConnectionError").

(** A completion order in which the fetch of [M2SL] is the first to end. *)
Definition completed_m2_first : list (string * string) :=
  ("M2SL", "M2") :: take 8 SERIES_IDS ++ drop 9 SERIES_IDS.

(** Two Series Tables on disjoint dates, as collected when the second series
    of the configuration completes first. *)
Definition table_unrate : DataFrame cell :=
  mkDataFrame ["unemployment Ratio"]
    [(Some (PyStr "2020-01-01"), [("unemployment Ratio", Some (PyStr "3.5"))]);
     (Some (PyStr "2020-01-02"), [("unemployment Ratio", Some (PyStr "3.6"))])].

Definition table_m2 : DataFrame cell :=
  mkDataFrame ["M2"]
    [(Some (PyStr "2020-01-03"), [("M2", Some (PyStr "15000"))]);
     (Some (PyStr "2020-01-04"), [("M2", Some (PyStr "15100"))])].

Definition merged_two_tables : DataFrame Timestamp :=
  mkDataFrame ["unemployment Ratio"; "M2"]
    [(Stamp 1577836800000000000, [("unemployment Ratio", Some (PyStr "3.5")); ("M2", NaN)]);
     (Stamp 1577923200000000000, [("unemployment Ratio", Some (PyStr "3.6")); ("M2", NaN)]);
     (Stamp 1578009600000000000, [("unemployment Ratio", NaN); ("M2", Some (PyStr "15000"))]);
     (Stamp 1578096000000000000, [("unemployment Ratio", NaN); ("M2", Some (PyStr "15100"))])].

(** Files left by an earlier run. *)
Definition files_before : gmap string string :=
  {[ "economic_indicators_data/unemployment Ratio.csv" := "stale";
     "economic_indicators_data/M2.csv" := "stale";
     "notes.txt" := "keep" ]}.

(** The merged file a run leaves, if it leaves one. *)
Definition written_output (run : result (gmap string string)) : option string :=
  match run with
  | Return fs => fs !! output_file
  | Raise _ => None
  end.

(** The files a run leaves at the given paths, if it ends normally. *)
Definition files_at (paths : list string) (run : result (gmap string string))
    : option (list (option string)) :=
  match run with
  | Return fs => Some ((λ p, fs !! p) <$> paths)
  | Raise _ => None
  end.

(** The unemployment rate is answered without the [observations] field, the
    money stock with two observations, every other series with status 500. *)
Definition network_mixed (url : string) : result Response :=
  if bool_decide (url = observations_url "UNRATE" API_KEY)
  then Return (mkResponse 200 (Return (JObj [("error_message", JStr "Bad Request.")])))
  else if bool_decide (url = observations_url "M2SL" API_KEY)
  then fred_response [fred_observation "2020-01-03" "15000"; fred_observation "2020-01-04" "15100"]
  else Return (mkResponse 500 (Return JNull)).

(** The unemployment rate is answered with an empty [observations] array. *)
Definition network_no_rows (url : string) : result Response :=
  if bool_decide (url = observations_url "UNRATE" API_KEY)
  then fred_response []
  else Raise (RequestException "ConnectionError").

(** ** Vocabulary of the further statements *)

(** The request succeeds and its body decodes to an object whose
    [observations] field is a list of records of scalars. *)
Definition decodes_to (out : result Response) (recs : list record) : Prop :=
  ∃ r fields obs,
    out = Return r ∧ ¬ (400 ≤ status_code r < 600)%Z ∧
    json_body r = Return (JObj fields) ∧
    dict_get "observations" fields = Some obs ∧
    records_of_json obs = Some recs.

(** All the tables have the same index. *)
Definition same_index {L} (frames : list (DataFrame L)) : Prop :=
  ∀ a b, a ∈ frames → b ∈ frames → index a = index b.

(** The answer to a request is a non-empty list of observations with the
    fields FRED sends. *)
Definition fred_answer (out : result Response) : Prop :=
  ∃ recs, decodes_to out recs ∧ recs ≠ [] ∧
    Forall (λ r : record, is_Some (dict_get "date" r) ∧ is_Some (dict_get "value" r)) recs ∧
    fred_fields recs.

(** The rows of a table with their labels read as dates. *)
Definition stamped_rows (read : cell → option Timestamp) (df : DataFrame cell)
    : list (row Timestamp) :=
  (λ r : row cell, (timestamp_of read (fst r), snd r)) <$> rows df.

(** Observations without a [date] field. *)
Definition network_no_dates (url : string) : result Response :=
  if bool_decide (url = observations_url "UNRATE" API_KEY)
  then fred_response [JObj [("value", JStr "3.5")]; JObj [("value", JStr "3.6")]]
  else Raise (RequestException "ConnectionError").

(** Observations without a [value] field. *)
Definition network_no_values (url : string) : result Response :=
  if bool_decide (url = observations_url "UNRATE" API_KEY)
  then fred_response [JObj [("date", JStr "2020-01-01")]; JObj [("date", JStr "2020-01-02")]]
  else Raise (RequestException "ConnectionError").

(** Observations none of which has a number. *)
Definition network_no_numbers (url : string) : result Response :=
  if bool_decide (url = observations_url "UNRATE" API_KEY)
  then fred_response [fred_observation "2020-01-01" "."; fred_observation "2020-01-02" "."]
  else Raise (RequestException "ConnectionError").

Definition no_number_records : list record :=
  [fred_record "2020-01-01" "."; fred_record "2020-01-02" "."].

(** Two series are answered with dates written with the year last, one of
    which can only be read day first. *)
Definition network_ambiguous_dates (url : string) : result Response :=
  if bool_decide (url = observations_url "UNRATE" API_KEY)
  then fred_response [fred_observation "13-01-2000" "3.5"]
  else if bool_decide (url = observations_url "M2SL" API_KEY)
  then fred_response [fred_observation "12-01-2000" "15000"]
  else Raise (RequestException "ConnectionError").

(** The unemployment rate repeats a date and the money stock is observed on
    another date. *)
Definition network_repeated_date_and_m2 (url : string) : result Response :=
  if bool_decide (url = observations_url "UNRATE" API_KEY)
  then fred_response [fred_observation "2020-01-01" "3.5"; fred_observation "2020-01-01" "3.6"]
  else if bool_decide (url = observations_url "M2SL" API_KEY)
  then fred_response [fred_observation "2020-01-03" "15000"]
  else Raise (RequestException "ConnectionError").

(** A table with the same date twice, out of date order. *)
Definition table_repeated : DataFrame cell :=
  mkDataFrame ["unemployment Ratio"]
    [(Some (PyStr "2020-01-02"), [("unemployment Ratio", Some (PyStr "3.6"))]);
     (Some (PyStr "2020-01-01"), [("unemployment Ratio", Some (PyStr "3.5"))]);
     (Some (PyStr "2020-01-01"), [("unemployment Ratio", Some (PyStr "3.5"))])].

Definition merged_repeated : DataFrame Timestamp :=
  mkDataFrame ["unemployment Ratio"]
    [(Stamp 1577836800000000000, [("unemployment Ratio", Some (PyStr "3.5"))]);
     (Stamp 1577836800000000000, [("unemployment Ratio", Some (PyStr "3.5"))]);
     (Stamp 1577923200000000000, [("unemployment Ratio", Some (PyStr "3.6"))])].

Definition no_date_records : list record :=
  [[("value", PyStr "3.5")]; [("value", PyStr "3.6")]].

Definition no_value_records : list record :=
  [[("date", PyStr "2020-01-01")]; [("date", PyStr "2020-01-02")]].

(** The tables collected from [network_repeated_date_and_m2]. *)
Definition table_unrate_repeated : DataFrame cell :=
  mkDataFrame ["unemployment Ratio"]
    [(Some (PyStr "2020-01-01"), [("unemployment Ratio", Some (PyStr "3.5"))]);
     (Some (PyStr "2020-01-01"), [("unemployment Ratio", Some (PyStr "3.6"))])].

Definition table_m2_single : DataFrame cell :=
  mkDataFrame ["M2"] [(Some (PyStr "2020-01-03"), [("M2", Some (PyStr "15000"))])].

(** The files the run over the unemployment rate alone leaves of
    [files_before]. *)
Definition files_after_unrate : gmap string string :=
  {[ "economic_indicators_data/economic_indicators.csv" :=
       csv_line ["date"; "unemployment Ratio"]
       +:+ csv_line ["2020-01-01"; "3.5"] +:+ csv_line ["2020-03-01"; "4.4"];
     "economic_indicators_data/M2.csv" := "stale";
     "notes.txt" := "keep" ]}.


(** * Properties *)

Section Facts.

#[local] Set Default Proof Using "Type".

Variable is_number : pyval → bool.
Variable to_datetime : list cell → cell → option Timestamp.
Variable to_csv : DataFrame Timestamp → string.
Variable DataFrame_of_other : json → result (DataFrame nat).
Variable requests_get : string → result Response.

Abbreviation get_data' := (get_data is_number DataFrame_of_other requests_get).
Abbreviation fetched' := (fetched is_number DataFrame_of_other requests_get).
Abbreviation fetch_log' := (fetch_log is_number DataFrame_of_other requests_get).
Abbreviation collect_one' := (collect_one is_number DataFrame_of_other requests_get).
Abbreviation collect' := (collect is_number DataFrame_of_other requests_get).
Abbreviation merge' := (merge to_datetime).
Abbreviation main' := (main is_number to_datetime to_csv DataFrame_of_other requests_get).

(** Proofs of facts that mention only some of the parameters set the others
    aside first, so that automation cannot pick them up. *)
Ltac statement_only :=
  try clear requests_get; try clear DataFrame_of_other; try clear to_csv;
  try clear to_datetime; try clear is_number.

(** ** Lists and dictionaries *)

Lemma elem_of_unique {A} `{EqDecision A} (l : list A) x : x ∈ unique l ↔ x ∈ l.
Proof.
  induction l as [|a l IH]; simpl; [done|].
  rewrite !elem_of_cons, list_elem_of_filter, IH.
  destruct (decide (x = a)); naive_solver.
Qed.

Lemma NoDup_unique {A} `{EqDecision A} (l : list A) : NoDup (unique l).
Proof.
  induction l as [|a l IH]; simpl; [constructor|].
  apply NoDup_cons. split.
  - rewrite list_elem_of_filter. naive_solver.
  - by apply NoDup_filter.
Qed.

Lemma filter_none {A} (P : A → Prop) `{∀ x, Decision (P x)} (l : list A) :
  Forall (λ x, ¬ P x) l → filter P l = [].
Proof.
  induction 1 as [|x l Hx _ IH]; [done|]. by rewrite filter_cons_False.
Qed.

Lemma filter_all {A} (P : A → Prop) `{∀ x, Decision (P x)} (l : list A) :
  Forall P l → filter P l = l.
Proof.
  induction 1 as [|x l Hx _ IH]; [done|]. rewrite filter_cons_True by done. by f_equal.
Qed.

Lemma count_label_fmap (f : string → string) k k' (l : list string) :
  (∀ c, c ∈ l → f c = k' ↔ c = k) →
  count_label k' (f <$> l) = count_label k l.
Proof.
  statement_only.
  unfold count_label. induction l as [|c l IH]; intros Hf; [done|].
  rewrite fmap_cons, !filter_cons.
  assert (Hc : f c = k' ↔ c = k) by (apply Hf; left).
  assert (IH' : length (filter (λ c0, c0 = k') (f <$> l)) = length (filter (λ c0, c0 = k) l)).
  { apply IH. intros c' Hc'. apply Hf. by right. }
  destruct (decide (f c = k')), (decide (c = k)); simpl; try tauto; by rewrite IH'.
Qed.

Lemma count_label_NoDup k (l : list string) :
  NoDup l → k ∈ l → count_label k l = 1.
Proof.
  unfold count_label. induction 1 as [|c l Hc Hl IH]; [by intros ?%elem_of_nil|].
  intros [->|Hk]%elem_of_cons.
  - rewrite filter_cons_True by done. rewrite filter_none; [done|].
    apply Forall_forall. intros x Hx ->. done.
  - rewrite filter_cons_False; [by apply IH|]. intros ->. done.
Qed.

Lemma count_label_filter_ne k k0 (l : list string) :
  k ≠ k0 → count_label k (filter (λ c, c ≠ k0) l) = count_label k l.
Proof.
  intros Hne. unfold count_label. f_equal.
  apply list_filter_filter_l. by intros c ->.
Qed.

Lemma dict_get_None {V} k (d : list (string * V)) :
  dict_get k d = None ↔ k ∉ d.*1.
Proof.
  statement_only.
  induction d as [|[k' v] d IH]; simpl.
  - split; [intros _ ?%elem_of_nil; done|done].
  - case_bool_decide as Hk; subst.
    + split; [done|]. intros []. by left.
    + rewrite IH, not_elem_of_cons. naive_solver.
Qed.

Lemma dict_get_is_Some {V} k (d : list (string * V)) :
  is_Some (dict_get k d) ↔ k ∈ d.*1.
Proof.
  statement_only.
  rewrite <- not_eq_None_Some, dict_get_None.
  destruct (decide (k ∈ d.*1)); naive_solver.
Qed.

Lemma dict_get_fmap {V} (f : string → string) (v : string → V) k k' (l : list string) :
  (∀ c, c ∈ l → f c = k' ↔ c = k) → k ∈ l →
  dict_get k' ((λ c, (f c, v c)) <$> l) = Some (v k).
Proof.
  induction l as [|c l IH]; intros Hf; [by intros ?%elem_of_nil|].
  rewrite fmap_cons; simpl.
  assert (Hc : f c = k' ↔ c = k) by (apply Hf; left).
  intros Hk. case_bool_decide as Hfc.
  - apply Hc in Hfc. by subst.
  - apply elem_of_cons in Hk as [->|Hk]; [by destruct Hfc; apply Hc|].
    apply IH; [|done]. intros c' Hc'. apply Hf. by right.
Qed.

Lemma dict_get_filter {V} (P : string * V → Prop) `{∀ lc, Decision (P lc)} k
    (d : list (string * V)) :
  (∀ v, P (k, v)) → dict_get k (filter P d) = dict_get k d.
Proof.
  intros Hk. induction d as [|[k' v] d IH]; [done|].
  rewrite filter_cons; simpl.
  destruct (decide (P (k', v))) as [HP|HP]; simpl.
  - by rewrite IH.
  - rewrite bool_decide_false; [done|]. intros ->. by apply HP.
Qed.

Lemma labels_filter {V} (Q : string → Prop) `{∀ c, Decision (Q c)}
    (P : string * V → Prop) `{∀ lc, Decision (P lc)} (d : list (string * V)) :
  (∀ lc, P lc ↔ Q lc.1) → (filter P d).*1 = filter Q d.*1.
Proof.
  intros HPQ. induction d as [|lc d IH]; [done|].
  rewrite fmap_cons, !filter_cons.
  destruct (decide (P lc)) as [HP|HP], (decide (Q lc.1)) as [HQ|HQ];
    rewrite ?fmap_cons, IH; try done; exfalso; by (apply HQ, HPQ || apply HP, HPQ).
Qed.

Lemma elem_of_concat {A} (ls : list (list A)) (x : A) :
  x ∈ concat ls ↔ ∃ l, x ∈ l ∧ l ∈ ls.
Proof.
  induction ls as [|l ls IH]; simpl.
  - split; [by intros ?%elem_of_nil|]. by intros (l & _ & ?%elem_of_nil).
  - rewrite elem_of_app, IH. split.
    + intros [Hx|(l' & Hx & Hl')]; [exists l|exists l']; split; try done; by constructor.
    + intros (l' & Hx & [->|Hl']%elem_of_cons); [by left|right; eauto].
Qed.

Lemma boolean_mask_fmap {A} (p : A → bool) (l : list A) :
  boolean_mask l (p <$> l) = filter (λ x, p x = true) l.
Proof.
  induction l as [|x l IH]; [done|].
  rewrite fmap_cons, filter_cons. cbn [boolean_mask]. rewrite IH.
  destruct (p x) eqn:E; case_decide; congruence.
Qed.

Lemma filter_fmap {A B} (f : A → B) (P : B → Prop) `{∀ y, Decision (P y)} (l : list A) :
  filter P (f <$> l) = f <$> filter (λ x, P (f x)) l.
Proof.
  induction l as [|x l IH]; [done|].
  rewrite fmap_cons, !filter_cons. destruct (decide (P (f x))); simpl; by rewrite IH.
Qed.

(** ** The dispatcher loop *)

Lemma collect_one_spec st s :
  collect_one' st s =
    mkCollected (dfs st ++ option_list (fetched' s))
      (successful_series st ++ (if fetched' s is Some _ then [snd s] else []))
      (log st ++ fetch_log' s).
Proof.
  destruct s as [id name], st as [d su lg].
  unfold collect_one, fetched, fetch_log; simpl.
  destruct get_data as [df|e]; simpl.
  - destruct (empty df); simpl; by rewrite ?app_nil_r.
  - by rewrite !app_nil_r.
Qed.

Lemma foldl_collect_one completed st :
  foldl collect_one' st completed =
    mkCollected (dfs st ++ omap fetched' completed)
      (successful_series st ++ fmap snd (filter (λ s, is_Some (fetched' s)) completed))
      (log st ++ flat_map fetch_log' completed).
Proof.
  revert st. induction completed as [|s l IH]; intros st; simpl.
  - destruct st; simpl. by rewrite !app_nil_r.
  - rewrite IH, collect_one_spec; simpl. rewrite <- !app_assoc. f_equal.
    + f_equal. destruct (fetched' s); done.
    + f_equal. rewrite filter_cons. destruct (fetched' s) eqn:E.
      * rewrite decide_True by eauto. done.
      * rewrite decide_False by (intros [? ?]; done). done.
Qed.

Lemma collect_spec completed :
  collect' completed =
    mkCollected (omap fetched' completed)
      (fmap snd (filter (λ s, is_Some (fetched' s)) completed))
      (flat_map fetch_log' completed).
Proof. unfold collect. by rewrite foldl_collect_one. Qed.

Lemma fetched_Some s df :
  fetched' s = Some df ↔ get_data' (fst s) (snd s) API_KEY = Return df ∧ empty df = false.
Proof.
  unfold fetched. destruct get_data as [d|e]; [destruct (empty d) eqn:E|].
  - split; [done|]. intros [[= <-] ?]. congruence.
  - split; [intros [= <-]; done|]. by intros [[= <-] ?].
  - split; [done|]. by intros [? ?].
Qed.

(** C9: an exception raised by one fetch is caught in its own iteration
    and logged; the tables and names collected are those of the fetches
    that returned a non-empty table, whatever the other fetches did, and
    the run goes on to merge them and write the output. *)
Theorem C9_fetch_failures_are_isolated completed fs :
  let st := collect' completed in
  dfs st = omap fetched' completed ∧
  successful_series st = fmap snd (filter (λ s, is_Some (fetched' s)) completed) ∧
  log st = flat_map fetch_log' completed ∧
  (∀ s, is_Some (fetched' s) ↔
        ∃ df, get_data' (fst s) (snd s) API_KEY = Return df ∧ empty df = false) ∧
  (∀ s e, get_data' (fst s) (snd s) API_KEY = Raise e →
          fetched' s = None ∧ fetch_log' s = [LogError (snd s) e]) ∧
  main' completed fs =
    merge' (omap fetched' completed) ≫= λ merged_df,
      save_data to_csv merged_df "economic_indicators.csv" fs ≫= λ fs',
        Return (cleanup (successful_series st) fs').
Proof.
  intros st. subst st. rewrite collect_spec; simpl.
  repeat split.
  - intros [df Hdf]. exists df. by apply fetched_Some.
  - intros (df & Hdf). exists df. by apply fetched_Some.
  - unfold fetched. by rewrite H.
  - unfold fetch_log. by rewrite H.
  - unfold main. rewrite collect_spec. done.
Qed.

(** ** The empty join *)

Lemma merge_nil : merge' [] = Raise (ValueError "No objects to concatenate").
Proof. reflexivity. Qed.

(** C1: when no fetch yields a table, [pd.concat] is given an empty list
    and raises; [main] ends with that [ValueError] and writes nothing. *)
Theorem C1_no_series_succeeds_raises completed fs :
  Forall (λ s, fetched is_number DataFrame_of_other requests_get s = None) completed →
  dfs (collect' completed) = [] ∧
  main' completed fs = Raise (ValueError "No objects to concatenate").
Proof.
  intros Hall.
  assert (Hnil : omap fetched' completed = []).
  { induction Hall as [|s l Hs _ IH]; simpl; [done|]. by rewrite Hs. }
  unfold main. rewrite collect_spec; simpl. rewrite Hnil. done.
Qed.

(** ** The fetcher on failing requests *)

Lemma get_data_request_fails series_id series_name api_key :
  request_fails (requests_get (observations_url series_id api_key)) →
  get_data' series_id series_name api_key = Return empty_DataFrame.
Proof.
  intros Hfail. unfold get_data.
  destruct Hfail as [e -> He | r -> Hs | r e -> Hs Hb He]; simpl.
  - by rewrite He.
  - unfold raise_for_status. by rewrite bool_decide_true.
  - unfold raise_for_status. rewrite bool_decide_false by done. simpl.
    rewrite Hb; simpl. by rewrite He.
Qed.

Lemma get_data_missing_observations series_id series_name api_key r fields :
  requests_get (observations_url series_id api_key) = Return r →
  ¬ (400 ≤ status_code r < 600)%Z →
  json_body r = Return (JObj fields) →
  dict_get "observations" fields = None →
  get_data' series_id series_name api_key = Raise (KeyError "observations").
Proof.
  intros Hr Hs Hb Hf. unfold get_data. rewrite Hr; simpl.
  unfold raise_for_status. rewrite bool_decide_false by done. simpl.
  rewrite Hb; simpl. by rewrite Hf.
Qed.

(** C2, amended: a request that fails with a [RequestException] (transport
    failure, error status, undecodable body) gives the empty table; a
    decoded body without the [observations] field makes [get_data] raise
    [KeyError] to its caller. *)
Theorem C2_request_failures_give_empty_table series_id series_name api_key :
  let out := requests_get (observations_url series_id api_key) in
  (request_fails out →
     get_data' series_id series_name api_key = Return empty_DataFrame) ∧
  (∀ r fields,
     out = Return r → ¬ (400 ≤ status_code r < 600)%Z →
     json_body r = Return (JObj fields) →
     dict_get "observations" fields = None →
     get_data' series_id series_name api_key = Raise (KeyError "observations")).
Proof.
  split.
  - apply get_data_request_fails.
  - intros r fields. apply get_data_missing_observations.
Qed.

(** ** The cleanup loop *)

Lemma save_data_Return df filename fs fs1 :
  save_data to_csv df filename fs = Return fs1 →
  fs !! OUTPUT_DIR = None ∧ fs1 = <[path_join OUTPUT_DIR filename := to_csv df]> fs.
Proof.
  unfold save_data, makedirs_exist_ok. case_bool_decide as Hdir; [done|].
  intros [= <-]. split; [|done]. by apply eq_None_not_Some.
Qed.

Lemma save_data_no_file df filename fs :
  fs !! OUTPUT_DIR = None →
  save_data to_csv df filename fs = Return (<[path_join OUTPUT_DIR filename := to_csv df]> fs).
Proof.
  intros Hdir. unfold save_data, makedirs_exist_ok.
  rewrite bool_decide_false; [done|]. rewrite Hdir. by intros [? ?].
Qed.

Lemma remove_series_file_lookup fs name p :
  remove_series_file fs name !! p =
    if decide (p = series_file name) then None else fs !! p.
Proof.
  unfold remove_series_file. fold (series_file name).
  case_bool_decide as Hex.
  - rewrite lookup_delete. repeat case_decide; congruence.
  - case_decide as Hp; [|done]. subst p.
    by apply eq_None_not_Some.
Qed.

Lemma cleanup_lookup successful fs p :
  cleanup successful fs !! p =
    if decide (p ∈ fmap series_file successful) then None else fs !! p.
Proof.
  unfold cleanup. revert fs.
  induction successful as [|name l IH]; intros fs; cbn [foldl fmap list_fmap].
  - case_decide as Hin; [|done]. by apply elem_of_nil in Hin.
  - rewrite IH, remove_series_file_lookup.
    destruct (decide (p = series_file name)) as [->|Hne].
    + rewrite (decide_True (P := _ ∈ _ :: _)) by left. by case_decide.
    + case_decide as Hl.
      * rewrite decide_True; [done|by right].
      * rewrite decide_False; [done|]. by intros [?|?]%elem_of_cons.
Qed.

Lemma series_names_NoDup : NoDup series_names.
Proof. apply (bool_decide_unpack _). by vm_compute. Qed.


Lemma output_file_not_series_file :
  Forall (λ a, series_file a ≠ output_file) series_names.
Proof. apply (bool_decide_unpack _). by vm_compute. Qed.

Lemma successful_series_configured completed name :
  completed ≡ₚ SERIES_IDS →
  name ∈ successful_series (collect' completed) →
  ∃ series, series ∈ SERIES_IDS ∧ snd series = name ∧ is_Some (fetched' series).
Proof.
  intros Hperm. rewrite collect_spec; simpl.
  intros (s & -> & Hs)%list_elem_of_fmap.
  apply list_elem_of_filter in Hs as [Hsome Hin].
  exists s. by rewrite <- Hperm.
Qed.



(** ** Columns with the reserved prefix *)

Lemma drop_realtime_no_realtime {L} (df : DataFrame L) : no_realtime (drop_realtime df).
Proof.
  unfold no_realtime, drop_realtime, select_columns_by; simpl. split.
  - apply Forall_forall. intros c [Hc _]%list_elem_of_filter.
    by apply negb_true_iff.
  - apply Forall_fmap, Forall_forall. intros r _; simpl.
    apply Forall_forall. intros lc [Hc _]%list_elem_of_filter.
    by apply negb_true_iff.
Qed.

Lemma empty_DataFrame_no_realtime {L} : no_realtime (@empty_DataFrame L).
Proof. split; constructor. Qed.

(** A table [get_data] returns is the empty one of the handler or comes
    out of the last statement of the [try] block. *)
Lemma get_data_Return series_id series_name api_key df :
  get_data' series_id series_name api_key = Return df →
  df = empty_DataFrame ∨ ∃ df0, df = drop_realtime df0.
Proof.
  unfold get_data, try_except.
  destruct (requests_get _) as [r|e]; simpl.
  2:{ destruct (is_RequestException e); [left; congruence|done]. }
  destruct (raise_for_status r) as [[]|e]; simpl.
  2:{ destruct (is_RequestException e); [left; congruence|done]. }
  destruct (json_body r) as [data|e]; simpl.
  2:{ destruct (is_RequestException e); [left; congruence|done]. }
  destruct (json_getitem data "observations") as [obs|e]; simpl.
  2:{ destruct (is_RequestException e); [left; congruence|done]. }
  destruct (pd_DataFrame DataFrame_of_other obs) as [d|e]; simpl.
  2:{ destruct (is_RequestException e); [left; congruence|done]. }
  destruct (set_index "date" _) as [d'|e]; simpl.
  2:{ destruct (is_RequestException e); [left; congruence|done]. }
  destruct (getitem_column series_name d') as [col|e]; simpl.
  2:{ destruct (is_RequestException e); [left; congruence|done]. }
  intros [= <-]. right. eauto.
Qed.

Lemma insert_row_Permutation r l : insert_row r l ≡ₚ r :: l.
Proof.
  induction l as [|r' l IH]; simpl; [done|].
  destruct (ts_leb (fst r) (fst r')); [done|].
  rewrite IH. apply Permutation_swap.
Qed.

Lemma sort_rows_Permutation l : sort_rows l ≡ₚ l.
Proof.
  induction l as [|r l IH]; simpl; [done|].
  by rewrite insert_row_Permutation, IH.
Qed.

Lemma sort_index_no_realtime df : no_realtime df → no_realtime (sort_index df).
Proof.
  intros [Hc Hr]. split; [done|]. simpl. by rewrite sort_rows_Permutation.
Qed.

Lemma elem_of_flat_map {A B} (f : A → list B) (l : list A) (y : B) :
  y ∈ flat_map f l ↔ ∃ x, x ∈ l ∧ y ∈ f x.
Proof.
  induction l as [|a l IH]; simpl.
  - split; [by intros ?%elem_of_nil|]. by intros (x & ?%elem_of_nil & _).
  - rewrite elem_of_app, IH. split.
    + intros [Hy|(x & Hx & Hy)]; [exists a|exists x]; split; try done; by constructor.
    + intros (x & [->|Hx]%elem_of_cons & Hy); [by left|right; eauto].
Qed.

Lemma getitem_columns_no_realtime {L} names (df df' : DataFrame L) :
  getitem_columns names df = Return df' → no_realtime df → no_realtime df'.
Proof.
  unfold getitem_columns. case_bool_decide; [|done].
  intros [= <-] [Hc Hr]. split; simpl; unfold select_labels, select_cells.
  - apply Forall_forall. intros c (n & _ & [_ Hc']%list_elem_of_filter)%elem_of_flat_map.
    rewrite Forall_forall in Hc. by apply Hc.
  - rewrite Forall_fmap. eapply Forall_impl; [exact Hr|].
    intros r Hcells; simpl. apply Forall_forall.
    intros lc (n & _ & [_ Hlc]%list_elem_of_filter)%elem_of_flat_map.
    rewrite Forall_forall in Hcells. by apply Hcells.
Qed.

Lemma merge_no_realtime frames : on_return no_realtime (merge' frames).
Proof.
  unfold merge.
  destruct (concat_axis1_outer frames) as [j|e]; simpl; [|done].
  destruct (set_datetime_index to_datetime j) as [d|e]; simpl; [|done].
  destruct (getitem_columns _ _) as [m|e] eqn:Hm; simpl; [|done].
  eapply getitem_columns_no_realtime; [exact Hm|].
  apply sort_index_no_realtime, drop_realtime_no_realtime.
Qed.

(** C4: no column with the [realtime] prefix is left in the table the
    fetcher returns, nor in the merged table. *)
Theorem C4_no_realtime_columns series_id series_name api_key frames :
  on_return no_realtime (get_data' series_id series_name api_key) ∧
  on_return no_realtime (merge' frames) ∧
  (∀ completed, on_return no_realtime (merge' (dfs (collect' completed)))).
Proof.
  split; [|split].
  - destruct (get_data' series_id series_name api_key) as [df|e] eqn:Hget; simpl; [|done].
    apply get_data_Return in Hget as [->|[df0 ->]].
    + apply empty_DataFrame_no_realtime.
    + apply drop_realtime_no_realtime.
  - apply merge_no_realtime.
  - intros completed. apply merge_no_realtime.
Qed.

(** ** The fetcher on a well-formed response *)

Lemma well_formed_columns series_name out recs :
  well_formed_response series_name out recs →
  let cols := unique (concat (record_keys <$> recs)) in
  "date" ∈ cols ∧ "value" ∈ cols ∧ series_name ∉ cols.
Proof.
  intros [_ Hne Hdv Hfresh _] cols. subst cols.
  rewrite !elem_of_unique.
  destruct recs as [|r recs]; [done|].
  apply Forall_cons in Hdv as [[Hd Hv] _].
  repeat split.
  - apply elem_of_concat. exists (record_keys r). split; [|by left].
    by apply dict_get_is_Some.
  - apply elem_of_concat. exists (record_keys r). split; [|by left].
    by apply dict_get_is_Some.
  - intros (ks & Hks & (r' & -> & Hr')%list_elem_of_fmap)%elem_of_concat.
    rewrite Forall_forall in Hfresh. apply Hfresh in Hr'.
    by apply dict_get_None in Hr'.
Qed.

Lemma rows_of_records (ren : string → string) (cols : list string) (recs : list record) :
  (∀ c, c ∈ cols → ren c = "date" ↔ c = "date") → "date" ∈ cols →
  (λ r0 : row nat, (cell_at "date" r0, filter (λ lc : string * cell, lc.1 ≠ "date") r0.2))
    <$> ((λ r0 : row nat, (r0.1, (λ lc : string * cell, (ren lc.1, lc.2)) <$> r0.2))
           <$> imap (λ (i : nat) (r0 : record), (i, (λ c : string, (c, dict_get c r0)) <$> cols)) recs)
  = (λ r0 : record,
       (dict_get "date" r0,
        filter (λ lc : string * cell, lc.1 ≠ "date") ((λ c, (ren c, dict_get c r0)) <$> cols)))
      <$> recs.
Proof.
  intros Hren Hdate.
  rewrite <- list_fmap_compose, fmap_imap, <- imap_const.
  apply imap_ext. intros i r0 _. unfold compose, const, cell_at; simpl.
  rewrite <- list_fmap_compose. unfold compose; simpl.
  by rewrite (dict_get_fmap ren (λ c, dict_get c r0) "date" "date").
Qed.

Lemma get_data_well_formed series_id series_name api_key recs :
  well_formed_response series_name
    (requests_get (observations_url series_id api_key)) recs →
  ∃ df, get_data' series_id series_name api_key = Return df ∧
    columns df = without_realtime
                   (filter (λ c, c ≠ "date")
                      (rename_label "value" series_name <$> unique (concat (record_keys <$> recs)))) ∧
    series_name ∈ columns df ∧
    Forall (λ r : row cell, (snd r).*1 = columns df) (rows df) ∧
    (λ r : row cell, (fst r, cell_at series_name r)) <$> rows df
      = (λ r : record, (dict_get "date" r, dict_get "value" r))
          <$> filter (λ r : record, numeric_notna is_number (dict_get "value" r) = true) recs.
Proof.
  intros Hwf.
  destruct (well_formed_columns _ _ _ Hwf) as (Hdate & Hvalue & Hname).
  destruct Hwf as [(r & fields & obs & Hout & Hstatus & Hbody & Hobs & Hrecs) Hne Hdv Hfresh Hres].
  set (cols := unique (concat (record_keys <$> recs))) in *.
  set (ren := rename_label "value" series_name).
  assert (Hnd : series_name ≠ "date") by (by intros ->).
  assert (Hren_date : ∀ c, c ∈ cols → ren c = "date" ↔ c = "date").
  { intros c _. unfold ren, rename_label. case_bool_decide; naive_solver. }
  assert (Hren_name : ∀ c, c ∈ cols → ren c = series_name ↔ c = "value").
  { intros c Hc. unfold ren, rename_label. case_bool_decide; [naive_solver|].
    split; [|done]. intros ->. done. }
  assert (Hc1 : count_label "date" (ren <$> cols) = 1).
  { rewrite (count_label_fmap ren "date" "date") by done.
    apply count_label_NoDup; [apply NoDup_unique|done]. }
  assert (Hc2 : count_label series_name (filter (λ c, c ≠ "date") (ren <$> cols)) = 1).
  { rewrite count_label_filter_ne by done.
    rewrite (count_label_fmap ren "value" series_name) by done.
    apply count_label_NoDup; [apply NoDup_unique|done]. }
  unfold get_data. rewrite Hout. unfold mbind, result_bind.
  unfold raise_for_status. rewrite bool_decide_false by done.
  rewrite Hbody. cbn [json_getitem]. rewrite Hobs.
  unfold pd_DataFrame. rewrite Hrecs.
  unfold set_index. cbn [columns rename_columns DataFrame_of_records rows].
  fold cols. fold ren. rewrite Hc1.
  unfold getitem_column. cbn [columns rows]. rewrite Hc2.
  cbn [try_except mret result_ret].
  eexists. split; [reflexivity|].
  rewrite rows_of_records by done.
  set (cells1 := λ r0 : record, (λ c, (ren c, dict_get c r0)) <$> cols).
  set (keep := λ c : string, negb (startswith c "realtime") = true).
  assert (Hkeep : keep series_name) by (unfold keep; by rewrite Hres).
  assert (Hcell : ∀ r0 : record,
    dict_get series_name (filter (λ lc : string * cell, lc.1 ≠ "date") (cells1 r0))
      = Some (dict_get "value" r0)).
  { intros r0. rewrite dict_get_filter by (intros v; simpl; congruence).
    by apply (dict_get_fmap ren (λ c, dict_get c r0) "value" series_name). }
  unfold drop_realtime, select_columns_by, filter_rows. cbn [columns rows].
  assert (Hmask : ∀ rows2 : list (row cell),
    boolean_mask rows2 (numeric_notna is_number <$> (cell_at series_name <$> rows2))
      = filter (λ r0, numeric_notna is_number (cell_at series_name r0) = true) rows2).
  { intros rows2. rewrite <- list_fmap_compose. apply boolean_mask_fmap. }
  rewrite Hmask.
  split; [reflexivity|]. split; [|split].
  - apply list_elem_of_filter. split; [done|].
    apply list_elem_of_filter. split; [done|].
    apply list_elem_of_fmap. exists "value". split; [|done].
    symmetry. by apply Hren_name.
  - apply Forall_forall.
    intros r0 (r1 & -> & [_ Hr1]%list_elem_of_filter)%list_elem_of_fmap.
    apply list_elem_of_fmap in Hr1 as (rec & -> & _). cbn [fst snd].
    rewrite (labels_filter (λ c, negb (startswith c "realtime") = true)) by done.
    rewrite (labels_filter (λ c, c ≠ "date")) by done.
    rewrite <- list_fmap_compose. done.
  - rewrite (filter_fmap _ (λ r0 : row cell, numeric_notna is_number (cell_at series_name r0) = true)).
    rewrite <- !list_fmap_compose.
    rewrite (list_filter_iff _ (λ r0 : record, numeric_notna is_number (dict_get "value" r0) = true)).
    2:{ intros r0. unfold cell_at; cbn [fst snd]. fold (cells1 r0). by rewrite Hcell. }
    apply list_fmap_ext. intros i r0 _. unfold compose; cbn [fst snd]. f_equal.
    unfold cell_at; cbn [fst snd]. fold (cells1 r0).
    rewrite dict_get_filter by (intros v; exact Hkeep). by rewrite Hcell.
Qed.

(** C3: on a well-formed response the fetcher returns a table whose rows
    are, in order, the observations whose value parses as a number, each
    with the date and the value it had in the response; the observations
    whose value does not parse are left out. *)
Theorem C3_rows_kept_iff_numeric series_id series_name api_key recs :
  well_formed_response series_name
    (requests_get (observations_url series_id api_key)) recs →
  ∃ df, get_data' series_id series_name api_key = Return df ∧
    series_name ∈ columns df ∧
    (λ r : row cell, (fst r, cell_at series_name r)) <$> rows df
      = (λ r : record, (dict_get "date" r, dict_get "value" r))
          <$> filter (λ r : record, numeric_notna is_number (dict_get "value" r) = true) recs.
Proof.
  intros Hwf.
  destruct (get_data_well_formed _ _ _ _ Hwf) as (df & Hget & _ & Hcol & _ & Hrows).
  eauto.
Qed.

Lemma index_well_formed series_id series_name api_key recs df :
  well_formed_response series_name
    (requests_get (observations_url series_id api_key)) recs →
  get_data' series_id series_name api_key = Return df →
  index df = dict_get "date"
    <$> filter (λ r : record, numeric_notna is_number (dict_get "value" r) = true) recs.
Proof.
  intros Hwf Hget.
  destruct (get_data_well_formed _ _ _ _ Hwf) as (df' & Hget' & _ & _ & _ & Hrows).
  assert (df' = df) as -> by congruence.
  apply (f_equal (fmap fst)) in Hrows.
  rewrite <- !list_fmap_compose in Hrows. exact Hrows.
Qed.

(** C7, amended: the row keys of the table are the dates of the kept
    observations, in response order and as often as they occur there:
    observations that repeat a date are all kept; so the table has no
    duplicate date exactly when the kept observations carry pairwise
    distinct dates, in particular when all the observations do. *)
Theorem C7_distinct_dates_stay_distinct series_id series_name api_key recs :
  well_formed_response series_name
    (requests_get (observations_url series_id api_key)) recs →
  ∃ df, get_data' series_id series_name api_key = Return df ∧
    index df = dict_get "date"
      <$> filter (λ r : record, numeric_notna is_number (dict_get "value" r) = true) recs ∧
    (NoDup (index df) ↔
     NoDup (dict_get "date"
              <$> filter (λ r : record, numeric_notna is_number (dict_get "value" r) = true)
                    recs)) ∧
    (NoDup (dict_get "date" <$> recs) → NoDup (index df)).
Proof.
  intros Hwf.
  destruct (get_data_well_formed _ _ _ _ Hwf) as (df & Hget & _).
  exists df. split; [done|].
  pose proof (index_well_formed _ _ _ _ _ Hwf Hget) as Hidx.
  split; [done|]. rewrite Hidx. split; [done|].
  intros Hnodup. eapply sublist_NoDup; [exact Hnodup|].
  apply fmap_sublist, sublist_filter.
Qed.

(** ** Sorting by date *)

Lemma ts_leb_total a b : ts_leb a b = true ∨ ts_leb b a = true.
Proof.
  destruct a as [|x], b as [|y]; simpl; auto.
  destruct (decide (x ≤ y)%Z).
  - left. by apply bool_decide_eq_true.
  - right. apply bool_decide_eq_true. lia.
Qed.

Lemma ts_leb_trans a b c : ts_leb a b = true → ts_leb b c = true → ts_leb a c = true.
Proof.
  destruct a as [|x], b as [|y], c as [|z]; simpl; try done.
  rewrite !bool_decide_eq_true. lia.
Qed.

Lemma ts_leb_antisym a b : ts_leb a b = true → ts_leb b a = true → a = b.
Proof.
  destruct a as [|x], b as [|y]; simpl; try done.
  rewrite !bool_decide_eq_true. intros. f_equal. lia.
Qed.

Lemma HdRel_insert_row a r l :
  HdRel row_le a l → row_le a r → HdRel row_le a (insert_row r l).
Proof.
  intros Hl Har. destruct l as [|r' l]; simpl; [by constructor|].
  destruct (ts_leb (fst r) (fst r')); constructor; [done|].
  by inversion Hl.
Qed.

Lemma insert_row_Sorted r l : Sorted row_le l → Sorted row_le (insert_row r l).
Proof.
  induction 1 as [|r' l Hl IH Hhd]; simpl; [by repeat constructor|].
  destruct (ts_leb (fst r) (fst r')) eqn:Hle.
  - constructor; [by constructor|]. by constructor.
  - constructor; [done|]. apply HdRel_insert_row; [done|].
    unfold row_le, ts_le. destruct (ts_leb_total (fst r) (fst r')); congruence.
Qed.

Lemma sort_rows_Sorted l : Sorted row_le (sort_rows l).
Proof.
  induction l as [|r l IH]; simpl; [constructor|]. by apply insert_row_Sorted.
Qed.

Global Instance row_le_trans : Transitive row_le.
Proof. intros a b c. unfold row_le, ts_le. apply ts_leb_trans. Qed.

Lemma insert_row_fmap_snd (g : list (string * cell) → list (string * cell)) r l :
  insert_row (fst r, g (snd r)) ((λ r : row Timestamp, (fst r, g (snd r))) <$> l)
    = (λ r : row Timestamp, (fst r, g (snd r))) <$> insert_row r l.
Proof.
  induction l as [|r' l IH]; [done|].
  rewrite fmap_cons. cbn [insert_row fst]. destruct (ts_leb (fst r) (fst r')).
  - by rewrite !fmap_cons.
  - by rewrite fmap_cons, IH.
Qed.

Lemma sort_rows_fmap_snd (g : list (string * cell) → list (string * cell)) l :
  sort_rows ((λ r : row Timestamp, (fst r, g (snd r))) <$> l)
    = (λ r : row Timestamp, (fst r, g (snd r))) <$> sort_rows l.
Proof.
  induction l as [|r l IH]; [done|].
  rewrite fmap_cons. cbn [sort_rows]. by rewrite IH, insert_row_fmap_snd.
Qed.

Lemma NoDup_fst_inj {A B} (l : list (A * B)) x y :
  NoDup l.*1 → x ∈ l → y ∈ l → fst x = fst y → x = y.
Proof.
  induction l as [|z l IH]; [by intros _ ?%elem_of_nil|].
  rewrite fmap_cons, NoDup_cons. intros [Hz Hl].
  intros [->|Hx]%elem_of_cons [->|Hy]%elem_of_cons Heq; try done.
  - destruct Hz. rewrite Heq. by apply list_elem_of_fmap_2.
  - destruct Hz. rewrite <- Heq. by apply list_elem_of_fmap_2.
  - by apply IH.
Qed.

(** With pairwise distinct dates the sorted rows do not depend on the
    order the rows came in. *)
Lemma sort_rows_unique l l' :
  l ≡ₚ l' → NoDup l.*1 → sort_rows l = sort_rows l'.
Proof.
  intros Hperm Hnodup.
  apply (StronglySorted_unique_strong row_le).
  - intros x1 x2 Hx1 Hx2 H12 H21.
    rewrite sort_rows_Permutation in Hx1. rewrite sort_rows_Permutation, <- Hperm in Hx2.
    eapply NoDup_fst_inj; [done..|]. by apply ts_leb_antisym.
  - apply Sorted_StronglySorted; [apply _|apply sort_rows_Sorted].
  - apply Sorted_StronglySorted; [apply _|apply sort_rows_Sorted].
  - by rewrite !sort_rows_Permutation.
Qed.

(** ** The steps of [merge] *)

Lemma concat_axis1_outer_columns {L} `{EqDecision L} (frames : list (DataFrame L)) j :
  concat_axis1_outer frames = Return j → columns j = concat (columns <$> frames).
Proof.
  destruct frames as [|df0 others]; [done|]. unfold concat_axis1_outer.
  repeat case_bool_decide; intros [= <-]; done.
Qed.

Lemma mapM_fmap_Forall {A B} (f : A → option B) (g : A → B) (l : list A) :
  Forall (λ x, f x = Some (g x)) l → mapM f l = Some (g <$> l).
Proof.
  intros Hall. apply mapM_Some_2, Forall2_fmap_r, Forall_Forall2_diag.
  eapply Forall_impl; [exact Hall|]. done.
Qed.

Lemma set_datetime_index_Return j :
  Forall (λ l, is_Some (to_datetime (index j) l)) (index j) →
  set_datetime_index to_datetime j
    = Return (mkDataFrame (columns j)
                ((λ r : row cell, (timestamp_of (to_datetime (index j)) (fst r), snd r)) <$> rows j)).
Proof.
  intros Hall. unfold set_datetime_index. set (read := to_datetime (index j)) in *.
  rewrite (mapM_fmap_Forall _ (λ r : row cell, (timestamp_of read (fst r), snd r))); [done|].
  unfold index in Hall. rewrite Forall_fmap in Hall.
  eapply Forall_impl; [exact Hall|]. intros r [t Ht]; simpl in *.
  unfold timestamp_of. by rewrite Ht.
Qed.

Lemma set_datetime_index_Raise j :
  Exists (λ l, to_datetime (index j) l = None) (index j) →
  set_datetime_index to_datetime j = Raise (ValueError "Unknown datetime string format").
Proof.
  intros Hex. unfold set_datetime_index. set (read := to_datetime (index j)) in *.
  rewrite (proj2 (mapM_None _ _)); [done|].
  unfold index in Hex. apply Exists_fmap in Hex.
  eapply Exists_impl; [exact Hex|]. intros r Hr; simpl in *. by rewrite Hr.
Qed.

Lemma datetime_labels_dec (read : cell → option Timestamp) (labels : list cell) :
  Forall (λ l, is_Some (read l)) labels ∨ Exists (λ l, read l = None) labels.
Proof.
  statement_only.
  induction labels as [|l labels [IH|IH]]; [by left| |by right; right].
  destruct (read l) eqn:E; [left|right; by left].
  constructor; [by rewrite E|done].
Qed.

Lemma merge_concat_Raise frames e :
  concat_axis1_outer frames = Raise e → merge' frames = Raise e.
Proof. intros Hj. unfold merge. by rewrite Hj. Qed.

Lemma merge_datetime_Raise frames j :
  concat_axis1_outer frames = Return j →
  Exists (λ l, to_datetime (index j) l = None) (index j) →
  merge' frames = Raise (ValueError "Unknown datetime string format").
Proof.
  intros Hj Hex. unfold merge. rewrite Hj. unfold mbind, result_bind.
  by rewrite set_datetime_index_Raise.
Qed.

Lemma merge_Return frames j :
  concat_axis1_outer frames = Return j →
  Forall (λ l, is_Some (to_datetime (index j) l)) (index j) →
  merge' frames
    = Return (mkDataFrame
        (select_labels (columns_order (columns j)) (without_realtime (columns j)))
        (sort_rows ((λ r : row cell,
                       (timestamp_of (to_datetime (index j)) (fst r), merged_cells (columns j) (snd r)))
                    <$> rows j))).
Proof.
  intros Hj Hall. unfold merge. rewrite Hj. unfold mbind, result_bind.
  rewrite set_datetime_index_Return by done.
  unfold getitem_columns. cbn [columns rows sort_index drop_realtime select_columns_by].
  rewrite bool_decide_true.
  2:{ apply Forall_forall. by intros n [Hn _]%list_elem_of_filter. }
  f_equal. f_equal.
  rewrite <- sort_rows_fmap_snd, <- !list_fmap_compose. done.
Qed.

(** ** The columns of the merged table *)

Lemma concat_Permutation {A} (ls ls' : list (list A)) :
  ls ≡ₚ ls' → concat ls ≡ₚ concat ls'.
Proof.
  induction 1 as [|l ls ls' _ IH|l1 l2 ls|ls1 ls2 ls3 _ IH1 _ IH2]; simpl.
  - done.
  - by rewrite IH.
  - rewrite !app_assoc. f_equiv. apply Permutation_app_comm.
  - by rewrite IH1.
Qed.

Lemma filter_ext_in {A} (P Q : A → Prop) `{∀ x, Decision (P x)} `{∀ x, Decision (Q x)}
    (l : list A) :
  (∀ x, x ∈ l → P x ↔ Q x) → filter P l = filter Q l.
Proof.
  induction l as [|x l IH]; intros HPQ; [done|].
  rewrite !filter_cons.
  assert (P x ↔ Q x) as Hx by (apply HPQ; left).
  rewrite IH by (intros y Hy; apply HPQ; by right).
  destruct (decide (P x)), (decide (Q x)); tauto.
Qed.

Lemma filter_eq_Permutation (n : string) (l l' : list string) :
  l ≡ₚ l' → filter (λ c, c = n) l = filter (λ c, c = n) l'.
Proof.
  intros Hperm.
  assert (Hrep : filter (λ c, c = n) l = replicate (length (filter (λ c, c = n) l)) n).
  { symmetry. apply replicate_as_elem_of. split; [done|].
    by intros y [-> _]%list_elem_of_filter. }
  rewrite Hrep. apply replicate_Permutation. rewrite <- Hrep. by rewrite Hperm.
Qed.

Lemma filter_eq_NoDup (n : string) (l : list string) :
  NoDup l → n ∈ l → filter (λ c, c = n) l = [n].
Proof.
  intros Hnodup Hin.
  pose proof (count_label_NoDup n l Hnodup Hin) as Hcount. unfold count_label in Hcount.
  destruct (filter (λ c, c = n) l) as [|c [|c' l']] eqn:E; try done.
  assert (c ∈ filter (λ c, c = n) l) as [-> _]%list_elem_of_filter by (rewrite E; left).
  done.
Qed.

Lemma flat_map_singletons {A} (f : A → list A) (l : list A) :
  Forall (λ x, f x = [x]) l → flat_map f l = l.
Proof. induction 1 as [|x l Hx _ IH]; simpl; [done|]. by rewrite Hx, IH. Qed.

Lemma flat_map_ext_in {A B} (f g : A → list B) (l : list A) :
  Forall (λ x, f x = g x) l → flat_map f l = flat_map g l.
Proof. induction 1 as [|x l Hx _ IH]; simpl; [done|]. by rewrite Hx, IH. Qed.

Lemma without_realtime_Permutation cols cols' :
  cols ≡ₚ cols' → without_realtime cols ≡ₚ without_realtime cols'.
Proof. intros Hperm. unfold without_realtime. by rewrite Hperm. Qed.

Lemma columns_order_Permutation cols cols' :
  cols ≡ₚ cols' → columns_order cols = columns_order cols'.
Proof.
  intros Hperm. unfold columns_order. apply list_filter_iff. intros col.
  by rewrite (without_realtime_Permutation _ _ Hperm).
Qed.

Lemma select_labels_Permutation names cols cols' :
  cols ≡ₚ cols' → select_labels names cols = select_labels names cols'.
Proof.
  intros Hperm. unfold select_labels. apply flat_map_ext_in, Forall_forall.
  intros n _. by apply filter_eq_Permutation.
Qed.

Lemma series_names_not_reserved :
  Forall (λ n, startswith n "realtime" = false) series_names.
Proof. apply (bool_decide_unpack _). by vm_compute. Qed.

Lemma merge_columns frames m :
  merge' frames = Return m →
  columns m = select_labels (columns_order (concat (columns <$> frames)))
                (without_realtime (concat (columns <$> frames))).
Proof.
  intros Hm. destruct (concat_axis1_outer frames) as [j|e] eqn:Hj.
  2:{ by rewrite (merge_concat_Raise _ _ Hj) in Hm. }
  destruct (datetime_labels_dec (to_datetime (index j)) (index j)) as [Hall|Hex].
  2:{ by rewrite (merge_datetime_Raise _ _ Hj Hex) in Hm. }
  rewrite (merge_Return _ _ Hj Hall) in Hm. injection Hm as <-. simpl.
  by rewrite (concat_axis1_outer_columns _ _ Hj).
Qed.

Lemma concat_columns_names (names : list string) (frames : list (DataFrame cell)) :
  Forall2 (λ n df, columns df = [n]) names frames → concat (columns <$> frames) = names.
Proof.
  induction 1 as [|n df names frames Hn _ IH]; [done|].
  rewrite fmap_cons. simpl. by rewrite Hn, IH.
Qed.

Lemma select_labels_configured (cols : list string) :
  select_labels (columns_order cols) (without_realtime cols)
  = flat_map (λ n, filter (λ c, c = n) cols) series_names.
Proof.
  statement_only.
  unfold select_labels, columns_order.
  pose proof series_names_not_reserved as Hres.
  induction Hres as [|n names Hn _ IH]; [done|].
  assert (Hf : filter (λ c, c = n) (without_realtime cols) = filter (λ c, c = n) cols).
  { unfold without_realtime. apply list_filter_filter_l. intros c ->. by rewrite Hn. }
  rewrite filter_cons. simpl. case_decide as Hin.
  - simpl. by rewrite Hf, IH.
  - rewrite IH. rewrite <- Hf. rewrite (filter_none (λ c, c = n)); [done|].
    apply Forall_forall. by intros c Hc ->.
Qed.

Lemma flat_map_filter_NoDup (cols names : list string) :
  NoDup cols →
  flat_map (λ n, filter (λ c, c = n) cols) names = filter (λ n, n ∈ cols) names.
Proof.
  statement_only.
  intros Hnodup. induction names as [|n names IH]; [done|].
  simpl. rewrite filter_cons, IH. case_decide as Hin.
  - by rewrite filter_eq_NoDup.
  - rewrite (filter_none (λ c, c = n)); [done|].
    apply Forall_forall. by intros c Hc ->.
Qed.

(** ** Series Tables from the fetcher *)

(** On a well-formed response with the fields of a FRED observation and
    pairwise distinct dates, the fetcher returns a Series Table. *)
Lemma get_data_series_table series_id series_name api_key recs :
  well_formed_response series_name
    (requests_get (observations_url series_id api_key)) recs →
  fred_fields recs →
  NoDup (dict_get "date" <$> recs) →
  ∃ df, get_data' series_id series_name api_key = Return df ∧ series_table series_name df.
Proof.
  intros Hwf Hfields Hnodup.
  destruct (well_formed_columns _ _ _ Hwf) as (Hdate & Hvalue & Hname).
  destruct (get_data_well_formed _ _ _ _ Hwf) as (df & Hget & Hcols & _ & Hcons & _).
  exists df. split; [done|]. split; [|done|].
  - rewrite Hcols. unfold without_realtime.
    set (cols := unique (concat (record_keys <$> recs))) in *.
    set (ren := rename_label "value" series_name).
    rewrite (filter_fmap ren (λ c, c ≠ "date")).
    rewrite (filter_fmap ren (λ c, negb (startswith c "realtime") = true)).
    rewrite list_filter_filter.
    rewrite (filter_ext_in _ (λ c, c = "value")).
    + rewrite filter_eq_NoDup; [|apply NoDup_unique|done].
      simpl. unfold ren, rename_label. by rewrite bool_decide_true.
    + intros c Hc.
      assert (c = "date" ∨ c = "value" ∨ startswith c "realtime" = true) as Hkind.
      { apply elem_of_unique, elem_of_concat in Hc as (ks & Hc & (r & -> & Hr)%list_elem_of_fmap).
        unfold fred_fields in Hfields. rewrite Forall_forall in Hfields.
        specialize (Hfields r Hr). rewrite Forall_forall in Hfields. by apply Hfields. }
      assert (Hres : startswith series_name "realtime" = false) by apply Hwf.
      unfold ren, rename_label. case_bool_decide as Hv.
      * subst c. rewrite Hres. split; [done|]. intros _. split; [done|]. by intros ->.
      * split; [|done]. intros [Hkeep Hnd].
        destruct Hkind as [->|[->|Hrt]]; [done|done|]. by rewrite Hrt in Hkeep.
  - rewrite (index_well_formed _ _ _ _ _ Hwf Hget).
    eapply sublist_NoDup; [exact Hnodup|]. apply fmap_sublist, sublist_filter.
Qed.

(** ** The outer join *)

Lemma unique_NoDup {A} `{EqDecision A} (l : list A) : NoDup l → unique l = l.
Proof.
  induction 1 as [|x l Hx _ IH]; simpl; [done|].
  rewrite IH. f_equal. apply filter_all, Forall_forall. by intros y Hy ->.
Qed.

Lemma unique_app {A} `{EqDecision A} (l k : list A) :
  unique (l ++ k) = unique l ++ filter (λ y, y ∉ l) (unique k).
Proof.
  induction l as [|x l IH]; simpl.
  - symmetry. apply filter_all, Forall_forall. by intros y _ ?%elem_of_nil.
  - rewrite IH, filter_app. f_equal. f_equal.
    rewrite list_filter_filter. apply list_filter_iff.
    intros y. rewrite not_elem_of_cons. done.
Qed.

Lemma unique_Permutation {A} `{EqDecision A} (l l' : list A) :
  l ≡ₚ l' → unique l ≡ₚ unique l'.
Proof.
  intros Hperm. apply NoDup_Permutation; [apply NoDup_unique..|].
  intros x. by rewrite !elem_of_unique, Hperm.
Qed.

Lemma cells_of_label_found {L} `{EqDecision L} (df : DataFrame L) i r :
  NoDup (index df) → rows df !! i = Some r → cells_of_label (fst r) df = snd r.
Proof.
  intros Hnodup Hi. unfold cells_of_label.
  assert (list_find (λ r' : row L, fst r' = fst r) (rows df) = Some (i, r)) as ->; [|done].
  apply list_find_Some. split; [done|]. split; [done|].
  intros j y Hj Hlt Hy.
  assert (j = i); [|lia].
  apply (NoDup_lookup (index df) j i (fst r)); [exact Hnodup| |].
  - unfold index. rewrite list_lookup_fmap, Hj. simpl. by rewrite Hy.
  - unfold index. by rewrite list_lookup_fmap, Hi.
Qed.



Lemma cells_at_position_label {L} `{EqDecision L} (df : DataFrame L) i lbl :
  NoDup (index df) → index df !! i = Some lbl →
  cells_at_position i df = cells_of_label lbl df.
Proof.
  intros Hnodup Hi. unfold index in Hi. rewrite list_lookup_fmap in Hi.
  destruct (rows df !! i) as [r|] eqn:Hr; [|done]. injection Hi as <-.
  rewrite (cells_of_label_found df i r) by done.
  unfold cells_at_position. by rewrite Hr.
Qed.

Lemma join_by_position_label {L} `{EqDecision L} (df0 : DataFrame L) others :
  Forall (λ df, index df = index df0) others →
  NoDup (index df0) →
  join_by_position df0 (df0 :: others) = join_by_label (df0 :: others).
Proof.
  intros Hsame Hnodup. unfold join_by_position, join_by_label. f_equal.
  assert (Hu : unique (concat (index <$> df0 :: others)) = index df0).
  { rewrite fmap_cons. simpl. rewrite unique_app, unique_NoDup by done.
    rewrite filter_none; [by rewrite app_nil_r|].
    apply Forall_forall. intros y Hy Hnot. destruct Hnot.
    rewrite elem_of_unique in Hy.
    apply elem_of_concat in Hy as (l & Hy & (df & -> & Hdf)%list_elem_of_fmap).
    rewrite Forall_forall in Hsame. by rewrite <- (Hsame df Hdf). }
  rewrite Hu. apply list_eq. intros i.
  rewrite list_lookup_imap. unfold index. rewrite !list_lookup_fmap.
  destruct (rows df0 !! i) as [r|] eqn:Hr; [|done].
  assert (Hcells : concat (cells_at_position i <$> df0 :: others)
                   = concat (cells_of_label (fst r) <$> df0 :: others)).
  { f_equal. apply list_fmap_ext. intros k df Hk.
    assert (index df = index df0) as Hidx.
    { apply list_elem_of_lookup_2 in Hk. apply elem_of_cons in Hk as [->|Hk]; [done|].
      rewrite Forall_forall in Hsame. by apply Hsame. }
    apply cells_at_position_label.
    - by rewrite Hidx.
    - rewrite Hidx. unfold index. by rewrite list_lookup_fmap, Hr. }
  simpl in *. by rewrite Hcells.
Qed.

(** With no duplicated date in any table, [pd.concat] is the outer join on
    the dates. *)
Lemma concat_axis1_outer_NoDup {L} `{EqDecision L} (frames : list (DataFrame L)) :
  frames ≠ [] → Forall (λ df, NoDup (index df)) frames →
  concat_axis1_outer frames = Return (join_by_label frames).
Proof.
  intros Hne Hnodup. destruct frames as [|df0 others]; [done|].
  unfold concat_axis1_outer. case_bool_decide as Hsame.
  - f_equal. apply join_by_position_label; [done|]. by apply Forall_cons in Hnodup as [? _].
  - by rewrite bool_decide_true.
Qed.

(** ** The cells of a merged row *)




Lemma cells_of_label_labels {L} `{EqDecision L} (df : DataFrame L) lbl :
  consistent df → (cells_of_label lbl df).*1 = columns df.
Proof.
  intros Hcons. unfold cells_of_label.
  destruct (list_find _ _) as [[i r]|] eqn:E.
  - apply list_find_Some in E as (Hi & _ & _).
    unfold consistent in Hcons. rewrite Forall_lookup in Hcons. by apply (Hcons i r).
  - unfold nan_cells. rewrite <- list_fmap_compose. apply list_fmap_id.
Qed.


Lemma date_labels_elem_of (frames : list (DataFrame cell)) l :
  l ∈ date_labels frames ↔ ∃ df, df ∈ frames ∧ l ∈ index df.
Proof.
  unfold date_labels. rewrite elem_of_concat. split.
  - intros (ls & Hl & (df & -> & Hdf)%list_elem_of_fmap). eauto.
  - intros (df & Hdf & Hl). exists (index df). split; [done|]. by apply list_elem_of_fmap_2.
Qed.

Lemma index_join_by_position {L} (df0 : DataFrame L) frames :
  index (join_by_position df0 frames) = index df0.
Proof.
  statement_only.
  unfold index, join_by_position. cbn [rows].
  apply list_eq. intros i. rewrite !list_lookup_fmap, list_lookup_imap.
  by destruct (rows df0 !! i).
Qed.

Lemma index_join_by_label {L} `{EqDecision L} (frames : list (DataFrame L)) :
  index (join_by_label frames) = unique (concat (index <$> frames)).
Proof.
  statement_only.
  unfold index at 1, join_by_label. cbn [rows].
  rewrite <- list_fmap_compose. apply list_fmap_id.
Qed.

Lemma concat_axis1_outer_joined_index (frames : list (DataFrame cell)) j :
  concat_axis1_outer frames = Return j → index j = joined_index frames.
Proof.
  statement_only.
  destruct frames as [|df0 others]; [done|]. unfold concat_axis1_outer, joined_index.
  case_bool_decide as Hsame; [|case_bool_decide; [|done]]; intros [= <-].
  - apply index_join_by_position.
  - apply index_join_by_label.
Qed.

Lemma joined_index_NoDup (frames : list (DataFrame cell)) :
  frames ≠ [] → Forall (λ df, NoDup (index df)) frames →
  joined_index frames = unique (date_labels frames).
Proof.
  statement_only.
  intros Hne Hnodup.
  pose proof (concat_axis1_outer_NoDup frames Hne Hnodup) as Hj.
  rewrite <- (concat_axis1_outer_joined_index _ _ Hj). apply index_join_by_label.
Qed.

Lemma timestamp_of_Some (read : cell → option Timestamp) l t :
  read l = Some t → timestamp_of read l = t.
Proof. statement_only. intros Hl. unfold timestamp_of. by rewrite Hl. Qed.

Lemma timestamp_of_is_Some (read : cell → option Timestamp) l :
  is_Some (read l) → read l = Some (timestamp_of read l).
Proof. statement_only. intros [t Ht]. by rewrite (timestamp_of_Some read l t). Qed.

(** The merged table of a collection of Series Tables, spelled out. *)
Lemma merge_series_tables (frames : list (DataFrame cell)) :
  frames ≠ [] →
  Forall (λ df, NoDup (index df)) frames →
  Forall (λ l, is_Some (to_datetime (unique (date_labels frames)) l)) (date_labels frames) →
  merge' frames
    = Return (mkDataFrame
        (select_labels (columns_order (concat (columns <$> frames)))
           (without_realtime (concat (columns <$> frames))))
        (sort_rows ((λ lbl, (timestamp_of (to_datetime (unique (date_labels frames))) lbl,
                            merged_cells (concat (columns <$> frames))
                              (concat (cells_of_label lbl <$> frames))))
                    <$> unique (date_labels frames)))).
Proof.
  intros Hne Hnodup Hparse.
  pose proof (concat_axis1_outer_NoDup frames Hne Hnodup) as Hj.
  rewrite (merge_Return _ _ Hj).
  - rewrite index_join_by_label. fold (date_labels frames).
    unfold join_by_label. cbn [columns rows].
    rewrite <- list_fmap_compose. reflexivity.
  - rewrite index_join_by_label. fold (date_labels frames).
    apply Forall_forall. intros l Hl.
    rewrite Forall_forall in Hparse. apply Hparse.
    by rewrite elem_of_unique in Hl.
Qed.


(** ** Independence of the order of the tables *)

Lemma filter_label_Permutation (n : string) (X X' : list (string * cell)) :
  X ≡ₚ X' → NoDup X.*1 →
  filter (λ lc : string * cell, fst lc = n) X = filter (λ lc : string * cell, fst lc = n) X'.
Proof.
  intros Hperm Hnodup.
  assert (Hp : filter (λ lc : string * cell, fst lc = n) X
               ≡ₚ filter (λ lc : string * cell, fst lc = n) X') by (by rewrite Hperm).
  destruct (filter (λ lc : string * cell, fst lc = n) X) as [|a [|b l]] eqn:E.
  - by apply Permutation_nil_l in Hp.
  - by apply Permutation_singleton_l in Hp.
  - exfalso.
    assert (a ∈ filter (λ lc : string * cell, fst lc = n) X) as [Ha1 Ha2]%list_elem_of_filter
      by (rewrite E; left).
    assert (b ∈ filter (λ lc : string * cell, fst lc = n) X) as [Hb1 Hb2]%list_elem_of_filter
      by (rewrite E; right; left).
    assert (a = b) as -> by (eapply NoDup_fst_inj; [done..|congruence]).
    assert (NoDup (filter (λ lc : string * cell, fst lc = n) X)) as Hnd.
    { apply NoDup_filter. by apply NoDup_fmap_1 in Hnodup. }
    rewrite E in Hnd. apply NoDup_cons in Hnd as [Hnd _]. apply Hnd. by left.
Qed.

Lemma select_cells_Permutation order (X X' : list (string * cell)) :
  X ≡ₚ X' → NoDup X.*1 → select_cells order X = select_cells order X'.
Proof.
  intros Hperm Hnodup. unfold select_cells. apply flat_map_ext_in, Forall_forall.
  intros n _. by apply filter_label_Permutation.
Qed.

Lemma merged_cells_Permutation C C' (X X' : list (string * cell)) :
  C ≡ₚ C' → X ≡ₚ X' → NoDup X.*1 → merged_cells C X = merged_cells C' X'.
Proof.
  intros HC HX Hnodup. unfold merged_cells.
  rewrite (columns_order_Permutation _ _ HC).
  apply select_cells_Permutation; [by rewrite HX|].
  eapply sublist_NoDup; [exact Hnodup|]. apply fmap_sublist, sublist_filter.
Qed.

Lemma fmap_concat {A B} (f : A → B) (ls : list (list A)) :
  f <$> concat ls = concat ((λ l : list A, f <$> l) <$> ls).
Proof.
  induction ls as [|l ls IH]; [done|].
  rewrite fmap_cons. simpl. by rewrite fmap_app, IH.
Qed.

Lemma cells_at_position_labels {L} (df : DataFrame L) i :
  consistent df → (cells_at_position i df).*1 = columns df.
Proof.
  intros Hcons. unfold cells_at_position.
  destruct (rows df !! i) as [r|] eqn:E.
  - unfold consistent in Hcons. rewrite Forall_lookup in Hcons. by apply (Hcons i r).
  - unfold nan_cells. rewrite <- list_fmap_compose. apply list_fmap_id.
Qed.

Lemma joined_labels {L} (frames : list (DataFrame L)) (cells : DataFrame L → list (string * cell)) :
  Forall (λ df, (cells df).*1 = columns df) frames →
  (concat (cells <$> frames)).*1 = concat (columns <$> frames).
Proof.
  intros Hall. rewrite fmap_concat, <- list_fmap_compose. f_equal.
  apply list_fmap_ext. intros i df Hdf. simpl.
  rewrite Forall_lookup in Hall. by apply (Hall i df).
Qed.

Lemma tidy_rows_stamp (read : cell → option Timestamp) j :
  (λ r : row cell, (timestamp_of read (fst r), merged_cells (columns j) (snd r))) <$> rows j
  = (λ r : row cell, (timestamp_of read (fst r), snd r)) <$> tidy_rows j.
Proof. statement_only. unfold tidy_rows. by rewrite <- list_fmap_compose. Qed.

Lemma index_tidy_rows (j : DataFrame cell) : (tidy_rows j).*1 = index j.
Proof. statement_only. unfold tidy_rows, index. by rewrite <- list_fmap_compose. Qed.

(** [merge] after the join: two joined tables with the same rows up to the
    order of the columns, and up to the order of the rows when their dates
    are pairwise distinct, are merged into the same table, provided their
    labels are read alike on the two indexes. *)
Lemma merge_tail_eq frames frames' j j' :
  concat_axis1_outer frames = Return j →
  concat_axis1_outer frames' = Return j' →
  columns j ≡ₚ columns j' →
  tidy_rows j ≡ₚ tidy_rows j' →
  (∀ l, l ∈ index j → to_datetime (index j) l = to_datetime (index j') l) →
  tidy_rows j = tidy_rows j' ∨
    (NoDup (index j) ∧ distinct_dates (to_datetime (index j)) (index j)) →
  merge' frames = merge' frames'.
Proof.
  intros Hj Hj' Hcols Hrows Hread Hcase.
  assert (Hidx : index j ≡ₚ index j').
  { rewrite <- !index_tidy_rows. by rewrite Hrows. }
  assert (Hread' : ∀ l, l ∈ index j' → to_datetime (index j') l = to_datetime (index j) l).
  { intros l Hl. symmetry. apply Hread. by rewrite Hidx. }
  destruct (datetime_labels_dec (to_datetime (index j)) (index j)) as [Hall|Hex].
  2:{ rewrite (merge_datetime_Raise _ _ Hj Hex).
      rewrite (merge_datetime_Raise _ _ Hj'); [done|].
      apply Exists_exists in Hex as (l & Hl & Hnone). apply Exists_exists.
      exists l. split; [by rewrite <- Hidx|]. by rewrite Hread'; [|by rewrite <- Hidx]. }
  rewrite (merge_Return _ _ Hj Hall).
  assert (Hall' : Forall (λ l, is_Some (to_datetime (index j') l)) (index j')).
  { rewrite Forall_forall in Hall |- *. intros l Hl.
    rewrite Hread' by done. apply Hall. by rewrite Hidx. }
  rewrite (merge_Return _ _ Hj' Hall').
  f_equal. f_equal.
  - rewrite (columns_order_Permutation _ _ Hcols).
    apply select_labels_Permutation. by apply without_realtime_Permutation.
  - rewrite !tidy_rows_stamp.
    assert (Hstamp : (λ r : row cell, (timestamp_of (to_datetime (index j')) (fst r), snd r))
                       <$> tidy_rows j'
                     = (λ r : row cell, (timestamp_of (to_datetime (index j)) (fst r), snd r))
                       <$> tidy_rows j').
    { apply list_fmap_ext. intros i r Hr. f_equal. unfold timestamp_of.
      rewrite Hread'; [done|]. rewrite <- index_tidy_rows.
      apply list_elem_of_fmap_2. by apply list_elem_of_lookup_2 in Hr. }
    rewrite Hstamp.
    destruct Hcase as [->|[Hnodup Hdist]]; [done|].
    apply sort_rows_unique; [by rewrite Hrows|].
    assert (((λ r : row cell, (timestamp_of (to_datetime (index j)) (fst r), snd r))
               <$> tidy_rows j).*1
            = timestamp_of (to_datetime (index j)) <$> index j) as ->.
    { unfold tidy_rows, index. rewrite <- !list_fmap_compose. by apply list_fmap_ext. }
    apply NoDup_fmap_2_strong; [|done].
    intros a b Ha Hb Hab. rewrite Forall_forall in Hall.
    apply (Hdist a b (timestamp_of (to_datetime (index j)) a)); try done.
    + by apply timestamp_of_is_Some, Hall.
    + rewrite Hab. by apply timestamp_of_is_Some, Hall.
Qed.

Lemma same_index_iff {L} (df0 : DataFrame L) (others : list (DataFrame L)) :
  Forall (λ df, index df = index df0) others ↔
  ∀ a b, a ∈ df0 :: others → b ∈ df0 :: others → index a = index b.
Proof.
  rewrite Forall_forall. split.
  - intros Hsame a b Ha Hb.
    assert (∀ c, c ∈ df0 :: others → index c = index df0) as Hc.
    { intros c [->|Hc]%elem_of_cons; [done|by apply Hsame]. }
    by rewrite (Hc a), (Hc b).
  - intros Hall df Hdf. apply Hall; [by right|by left].
Qed.

Lemma tidy_rows_by_position (df0 df0' : DataFrame cell) frames frames' :
  frames ≡ₚ frames' →
  index df0 = index df0' →
  Forall consistent frames →
  NoDup (concat (columns <$> frames)) →
  tidy_rows (join_by_position df0 frames) = tidy_rows (join_by_position df0' frames').
Proof.
  intros Hperm Hidx Hcons Hnodup. apply list_eq. intros i.
  unfold tidy_rows, join_by_position. cbn [columns rows].
  rewrite !list_lookup_fmap, !list_lookup_imap.
  assert (Hi : fst <$> rows df0 !! i = fst <$> rows df0' !! i).
  { unfold index in Hidx. by rewrite <- !list_lookup_fmap, Hidx. }
  destruct (rows df0 !! i) as [r|], (rows df0' !! i) as [r'|]; simpl in *; try done.
  injection Hi as Hi. f_equal. f_equal; [done|].
  apply merged_cells_Permutation.
  - apply concat_Permutation. by rewrite Hperm.
  - apply concat_Permutation. by rewrite Hperm.
  - rewrite (joined_labels frames (cells_at_position i)); [done|].
    eapply Forall_impl; [exact Hcons|]. intros df Hdf. by apply cells_at_position_labels.
Qed.

Lemma tidy_rows_by_label (frames frames' : list (DataFrame cell)) :
  frames ≡ₚ frames' →
  Forall consistent frames →
  NoDup (concat (columns <$> frames)) →
  tidy_rows (join_by_label frames) ≡ₚ tidy_rows (join_by_label frames').
Proof.
  intros Hperm Hcons Hnodup. unfold tidy_rows, join_by_label. cbn [columns rows].
  rewrite <- !list_fmap_compose.
  assert (HU : unique (concat (index <$> frames)) ≡ₚ unique (concat (index <$> frames'))).
  { apply unique_Permutation, concat_Permutation. by rewrite Hperm. }
  rewrite <- HU.
  match goal with |- ?A ≡ₚ ?B => assert (A = B) as ->; [|done] end.
  apply list_fmap_ext. intros i l _. simpl. f_equal.
  apply merged_cells_Permutation.
  - apply concat_Permutation. by rewrite Hperm.
  - apply concat_Permutation. by rewrite Hperm.
  - rewrite (joined_labels frames (cells_of_label l)); [done|].
    eapply Forall_impl; [exact Hcons|]. intros df Hdf. by apply cells_of_label_labels.
Qed.

Lemma distinct_dates_subset (read : cell → option Timestamp) (labels labels' : list cell) :
  (∀ l, l ∈ labels' → l ∈ labels) →
  distinct_dates read labels → distinct_dates read labels'.
Proof. statement_only. intros Hsub Hd a b t Ha Hb. apply Hd; by apply Hsub. Qed.

(** The merged table does not depend on the order of the collected tables,
    when no column label occurs twice among them, their labels are read in
    the same way in whatever order they stand, and distinct labels are
    never read as the same date. *)
Lemma merge_Permutation (frames frames' : list (DataFrame cell)) :
  frames ≡ₚ frames' →
  Forall consistent frames →
  NoDup (concat (columns <$> frames)) →
  order_blind to_datetime (date_labels frames) →
  distinct_dates (to_datetime (joined_index frames)) (date_labels frames) →
  merge' frames = merge' frames'.
Proof.
  intros Hperm Hcons Hnodup Hblind Hdist.
  destruct frames as [|df0 others], frames' as [|df0' others'].
  - done.
  - by apply Permutation_nil_cons in Hperm.
  - symmetry in Hperm. by apply Permutation_nil_cons in Hperm.
  - assert (Hcols : concat (columns <$> df0 :: others) ≡ₚ concat (columns <$> df0' :: others')).
    { apply concat_Permutation. by rewrite Hperm. }
    destruct (decide (Forall (λ df, index df = index df0) others)) as [Hsame|Hdiff].
    + assert (Hsame' : Forall (λ df, index df = index df0') others').
      { apply same_index_iff. intros a b Ha Hb. rewrite <- Hperm in Ha, Hb.
        by apply (proj1 (same_index_iff df0 others) Hsame). }
      assert (Hidx : index df0 = index df0').
      { apply (proj1 (same_index_iff df0 others) Hsame); [by left|].
        rewrite Hperm. by left. }
      eapply merge_tail_eq.
      * unfold concat_axis1_outer. by rewrite bool_decide_true.
      * unfold concat_axis1_outer. by rewrite bool_decide_true.
      * done.
      * by rewrite (tidy_rows_by_position df0 df0' _ _ Hperm Hidx Hcons Hnodup).
      * intros l _. by rewrite !index_join_by_position, Hidx.
      * left. by apply tidy_rows_by_position.
    + assert (Hdiff' : ¬ Forall (λ df, index df = index df0') others').
      { intros Hsame'. apply Hdiff, same_index_iff. intros a b Ha Hb.
        rewrite Hperm in Ha, Hb.
        by apply (proj1 (same_index_iff df0' others') Hsame'). }
      destruct (decide (Forall (λ df, NoDup (index df)) (df0 :: others))) as [Hnd|Hnd].
      * assert (Hnd' : Forall (λ df, NoDup (index df)) (df0' :: others')) by (by rewrite <- Hperm).
        assert (HJ : joined_index (df0 :: others) = unique (date_labels (df0 :: others))).
        { unfold joined_index. by rewrite bool_decide_false. }
        rewrite HJ in Hdist.
        eapply merge_tail_eq.
        -- unfold concat_axis1_outer.
           by rewrite bool_decide_false, bool_decide_true.
        -- unfold concat_axis1_outer.
           by rewrite bool_decide_false, bool_decide_true.
        -- done.
        -- by apply tidy_rows_by_label.
        -- intros l Hl. rewrite index_join_by_label in Hl.
           rewrite (index_join_by_label (df0 :: others)),
             (index_join_by_label (df0' :: others')).
           apply Hblind; [|by intros l'; rewrite elem_of_unique|done].
           apply unique_Permutation, concat_Permutation. by rewrite Hperm.
        -- right. rewrite index_join_by_label. split; [apply NoDup_unique|].
           eapply distinct_dates_subset; [|exact Hdist].
           intros l. by rewrite elem_of_unique.
      * assert (Hnd' : ¬ Forall (λ df, NoDup (index df)) (df0' :: others')) by (by rewrite <- Hperm).
        rewrite (merge_concat_Raise (df0 :: others)
                   (InvalidIndexError "Reindexing only valid with uniquely valued Index objects")).
        2:{ unfold concat_axis1_outer. by rewrite !bool_decide_false. }
        rewrite (merge_concat_Raise (df0' :: others')
                   (InvalidIndexError "Reindexing only valid with uniquely valued Index objects")).
        2:{ unfold concat_axis1_outer. by rewrite !bool_decide_false. }
        done.
Qed.

Lemma cleanup_Permutation successful successful' fs :
  successful ≡ₚ successful' → cleanup successful fs = cleanup successful' fs.
Proof.
  intros Hperm. apply map_eq. intros p. rewrite !cleanup_lookup.
  apply decide_ext. by rewrite Hperm.
Qed.

Lemma collect_Permutation completed completed' :
  completed ≡ₚ completed' →
  dfs (collect' completed) ≡ₚ dfs (collect' completed') ∧
  successful_series (collect' completed) ≡ₚ successful_series (collect' completed').
Proof.
  intros Hperm. rewrite !collect_spec. simpl. split; by rewrite Hperm.
Qed.

Lemma main_Permutation completed completed' fs :
  completed ≡ₚ completed' →
  Forall consistent (omap fetched' completed) →
  NoDup (concat (columns <$> omap fetched' completed)) →
  order_blind to_datetime (date_labels (omap fetched' completed)) →
  distinct_dates (to_datetime (joined_index (omap fetched' completed)))
    (date_labels (omap fetched' completed)) →
  main' completed fs = main' completed' fs.
Proof.
  intros Hperm Hcons Hnodup Hblind Hdist.
  destruct (collect_Permutation _ _ Hperm) as [Hdfs Hsucc].
  assert (Hdfs1 : dfs (collect' completed) = omap fetched' completed).
  { by rewrite collect_spec. }
  unfold main.
  rewrite (merge_Permutation _ _ Hdfs).
  - destruct (merge' (dfs (collect' completed'))) as [m|e]; simpl; [|done].
    destruct (save_data to_csv m "economic_indicators.csv" fs) as [fs1|e]; simpl; [|done].
    f_equal. by apply cleanup_Permutation.
  - by rewrite Hdfs1.
  - by rewrite Hdfs1.
  - by rewrite Hdfs1.
  - by rewrite Hdfs1.
Qed.

(** C8, amended: [main] is a function of the responses and of the order in
    which the fetches complete, and what it leaves does not depend on that
    order when no column label occurs twice among the fetched tables, the
    date labels are read in the same way in whatever order they stand in
    the index, and distinct date labels are never read as the same date. *)
Theorem C8_output_independent_of_completion_order completed1 completed2 fs :
  completed1 ≡ₚ SERIES_IDS →
  completed2 ≡ₚ SERIES_IDS →
  Forall consistent (omap fetched' completed1) →
  NoDup (concat (columns <$> omap fetched' completed1)) →
  order_blind to_datetime (date_labels (omap fetched' completed1)) →
  distinct_dates (to_datetime (joined_index (omap fetched' completed1)))
    (date_labels (omap fetched' completed1)) →
  main' completed1 fs = main' completed2 fs.
Proof.
  intros H1 H2 Hcons Hnodup Hblind Hdist.
  apply main_Permutation; try done.
  etrans; [exact H1|]. by symmetry.
Qed.

(** Labels that are read as pairwise different dates. *)
Lemma distinct_dates_NoDup (read : cell → option Timestamp) (labels : list cell) :
  NoDup (read <$> unique labels) → distinct_dates read labels.
Proof.
  statement_only.
  intros Hnodup a b t Ha Hb Hta Htb.
  apply elem_of_unique in Ha, Hb.
  apply list_elem_of_lookup in Ha as [i Hi], Hb as [j Hj].
  assert (i = j) as ->; [|congruence].
  apply (NoDup_lookup _ i j (Some t) Hnodup).
  - by rewrite list_lookup_fmap, Hi; simpl; rewrite Hta.
  - by rewrite list_lookup_fmap, Hj; simpl; rewrite Htb.
Qed.

(** ** The table the fetcher returns *)

Lemma count_label_not_elem_of k (l : list string) : k ∉ l → count_label k l = 0.
Proof.
  intros Hk. unfold count_label. rewrite filter_none; [done|].
  apply Forall_forall. by intros c Hc ->.
Qed.

Lemma count_label_filter_keep (keep : string → Prop) `{∀ c, Decision (keep c)} k (l : list string) :
  keep k → count_label k (filter keep l) = count_label k l.
Proof.
  intros Hk. unfold count_label. f_equal.
  apply list_filter_filter_l. by intros c ->.
Qed.

Lemma set_index_Return {L} key (d : DataFrame L) d' :
  set_index key d = Return d' →
  d' = mkDataFrame (filter (λ c, c ≠ key) (columns d))
         ((λ r : row L, (cell_at key r, filter (λ lc : string * cell, fst lc ≠ key) (snd r)))
            <$> rows d).
Proof.
  unfold set_index. destruct (count_label key (columns d)) as [|[|n]]; try done.
  by intros [= <-].
Qed.

Lemma getitem_column_Return {L} col (d : DataFrame L) cells :
  getitem_column col d = Return cells →
  count_label col (columns d) = 1 ∧ cells = cell_at col <$> rows d.
Proof.
  unfold getitem_column. destruct (count_label col (columns d)) as [|[|n]]; try done.
  by intros [= <-].
Qed.

(** A table [get_data] returns is the empty one of the handler, or what the
    last three statements of the [try] block make of a frame. *)
Lemma get_data_Return_inv series_id series_name api_key df :
  get_data' series_id series_name api_key = Return df →
  df = empty_DataFrame ∨
  ∃ (d : DataFrame nat) d' col,
    set_index "date" (rename_columns "value" series_name d) = Return d' ∧
    getitem_column series_name d' = Return col ∧
    df = drop_realtime (filter_rows (numeric_notna is_number <$> col) d').
Proof.
  unfold get_data, try_except.
  destruct (requests_get _) as [r|e]; simpl.
  2:{ destruct (is_RequestException e); [left; congruence|done]. }
  destruct (raise_for_status r) as [[]|e]; simpl.
  2:{ destruct (is_RequestException e); [left; congruence|done]. }
  destruct (json_body r) as [data|e]; simpl.
  2:{ destruct (is_RequestException e); [left; congruence|done]. }
  destruct (json_getitem data "observations") as [obs|e]; simpl.
  2:{ destruct (is_RequestException e); [left; congruence|done]. }
  destruct (pd_DataFrame DataFrame_of_other obs) as [d|e]; simpl.
  2:{ destruct (is_RequestException e); [left; congruence|done]. }
  destruct (set_index "date" _) as [d'|e] eqn:Hd'; simpl.
  2:{ destruct (is_RequestException e); [left; congruence|done]. }
  destruct (getitem_column series_name d') as [col|e] eqn:Hcol; simpl.
  2:{ destruct (is_RequestException e); [left; congruence|done]. }
  intros [= <-]. right. eauto 10.
Qed.

(** X1: a table the fetcher returns is the empty table of its handler, or
    it has exactly one column under the display name, no [date] column, and
    a number in that column on every row. *)
Theorem X1_returned_table_shape series_id series_name api_key df :
  get_data' series_id series_name api_key = Return df →
  startswith series_name "realtime" = false →
  df = empty_DataFrame ∨
  (count_label series_name (columns df) = 1 ∧
   ("date" ∉ columns df) ∧
   Forall (λ r : row cell, numeric_notna is_number (cell_at series_name r) = true) (rows df)).
Proof.
  intros Hget Hres.
  apply get_data_Return_inv in Hget as [->|(d & d' & col & Hd' & Hcol & ->)]; [by left|right].
  apply set_index_Return in Hd'.
  apply getitem_column_Return in Hcol as [Hcount ->].
  unfold drop_realtime, select_columns_by, filter_rows. cbn [columns rows].
  split; [|split].
  - rewrite count_label_filter_keep; [done|]. by rewrite Hres.
  - rewrite Hd'. cbn [columns].
    intros [_ [Hne _]%list_elem_of_filter]%list_elem_of_filter. done.
  - rewrite <- list_fmap_compose, boolean_mask_fmap.
    apply Forall_fmap, Forall_forall. intros r [Hr _]%list_elem_of_filter.
    unfold compose, cell_at in *. cbn [fst snd].
    rewrite dict_get_filter; [done|]. intros v. simpl. by rewrite Hres.
Qed.


(** ** The fetcher on records that lack a field *)

(** What [get_data] does once the body is decoded to records. *)
Lemma get_data_decoded series_id series_name api_key recs :
  decodes_to (requests_get (observations_url series_id api_key)) recs →
  get_data' series_id series_name api_key =
    try_except
      (df ← set_index "date" (rename_columns "value" series_name (DataFrame_of_records recs));
       col ← getitem_column series_name df;
       Return (drop_realtime (filter_rows (numeric_notna is_number <$> col) df)))
      is_RequestException
      (λ e, Return empty_DataFrame).
Proof.
  intros (r & fields & obs & Hout & Hstatus & Hbody & Hobs & Hrecs).
  unfold get_data. rewrite Hout. unfold mbind at 1, result_bind at 1.
  unfold raise_for_status. rewrite bool_decide_false by done.
  unfold mbind at 1, result_bind at 1. rewrite Hbody.
  unfold mbind at 1, result_bind at 1. cbn [json_getitem]. rewrite Hobs.
  unfold mbind at 1, result_bind at 1. unfold pd_DataFrame. rewrite Hrecs.
  reflexivity.
Qed.

Lemma record_field_absent k (recs : list record) :
  Forall (λ r : record, dict_get k r = None) recs →
  k ∉ unique (concat (record_keys <$> recs)).
Proof.
  statement_only.
  intros Hall. rewrite elem_of_unique.
  intros (ks & Hks & (r & -> & Hr)%list_elem_of_fmap)%elem_of_concat.
  rewrite Forall_forall in Hall. apply Hall in Hr. by apply dict_get_None in Hr.
Qed.

Lemma record_field_present k (recs : list record) :
  Exists (λ r : record, is_Some (dict_get k r)) recs →
  k ∈ unique (concat (record_keys <$> recs)).
Proof.
  statement_only.
  intros (r & Hr & Hk)%Exists_exists. rewrite elem_of_unique.
  apply elem_of_concat. exists (record_keys r). split.
  - by apply dict_get_is_Some.
  - by apply list_elem_of_fmap_2.
Qed.

(** X2: when no observation has a [date] field (in particular when the
    [observations] array is empty), [set_index] raises a [KeyError], which
    the handler of [get_data] does not catch. *)
Theorem X2_no_date_field_raises series_id series_name api_key recs :
  decodes_to (requests_get (observations_url series_id api_key)) recs →
  Forall (λ r : record, dict_get "date" r = None) recs →
  series_name ≠ "date" →
  get_data' series_id series_name api_key = Raise (KeyError "date").
Proof.
  intros Hdec Hnone Hname.
  rewrite (get_data_decoded _ _ _ _ Hdec).
  unfold set_index. cbn [columns rename_columns DataFrame_of_records].
  rewrite (count_label_fmap _ "date" "date").
  2:{ intros c _. unfold rename_label. case_bool_decide; naive_solver. }
  rewrite count_label_not_elem_of by (by apply record_field_absent).
  reflexivity.
Qed.

(** X3: when the observations have dates but none has a [value] field, no
    column is renamed to the display name and [df[series_name]] raises a
    [KeyError], which the handler of [get_data] does not catch. *)
Theorem X3_no_value_field_raises series_id series_name api_key recs :
  decodes_to (requests_get (observations_url series_id api_key)) recs →
  Exists (λ r : record, is_Some (dict_get "date" r)) recs →
  Forall (λ r : record, dict_get "value" r = None) recs →
  Forall (λ r : record, dict_get series_name r = None) recs →
  get_data' series_id series_name api_key = Raise (KeyError series_name).
Proof.
  intros Hdec Hdate Hvalue Hfresh.
  pose proof (record_field_present _ _ Hdate) as Hd.
  pose proof (record_field_absent _ _ Hvalue) as Hv.
  pose proof (record_field_absent _ _ Hfresh) as Hn.
  set (cols := unique (concat (record_keys <$> recs))) in *.
  assert (Hren : rename_label "value" series_name <$> cols = cols).
  { rewrite <- (list_fmap_id cols) at 2. apply list_fmap_ext. intros i c Hc.
    unfold rename_label. rewrite bool_decide_false; [done|].
    intros ->. by apply list_elem_of_lookup_2 in Hc. }
  rewrite (get_data_decoded _ _ _ _ Hdec).
  unfold set_index. cbn [columns rename_columns DataFrame_of_records]. fold cols.
  rewrite Hren, count_label_NoDup; [|apply NoDup_unique|done].
  unfold mbind at 1, result_bind at 1.
  unfold getitem_column. cbn [columns].
  rewrite count_label_not_elem_of; [reflexivity|].
  by intros [_ ?]%list_elem_of_filter.
Qed.

(** X4: a well-formed response none of whose values is a number gives a
    table with the column of the series and no row; the dispatcher takes it
    for an empty table and drops the series without a log line. *)
Theorem X4_series_without_numbers_is_dropped series_id series_name recs st :
  well_formed_response series_name
    (requests_get (observations_url series_id API_KEY)) recs →
  Forall (λ r : record, numeric_notna is_number (dict_get "value" r) = false) recs →
  (∃ df, get_data' series_id series_name API_KEY = Return df ∧
         series_name ∈ columns df ∧ rows df = []) ∧
  fetched' (series_id, series_name) = None ∧
  fetch_log' (series_id, series_name) = [] ∧
  collect_one is_number DataFrame_of_other requests_get st (series_id, series_name) = st.
Proof.
  intros Hwf Hnone.
  destruct (get_data_well_formed _ _ _ _ Hwf) as (df & Hget & _ & Hcol & _ & Hrows).
  rewrite filter_none in Hrows.
  2:{ eapply Forall_impl; [exact Hnone|]. intros r Hr. simpl in Hr. by rewrite Hr. }
  apply fmap_nil_inv in Hrows.
  assert (Hempty : empty df = true).
  { unfold empty. rewrite Hrows. by destruct (columns df). }
  assert (Hf : fetched' (series_id, series_name) = None).
  { unfold fetched. cbn [fst snd]. by rewrite Hget, Hempty. }
  assert (Hl : fetch_log' (series_id, series_name) = []).
  { unfold fetch_log. cbn [fst snd]. by rewrite Hget, Hempty. }
  split; [eauto|]. split; [done|]. split; [done|].
  rewrite collect_one_spec, Hf, Hl. destruct st; simpl. by rewrite !app_nil_r.
Qed.


(** ** What the dispatcher loop maintains *)

Lemma collected_aligned completed :
  Forall2 (λ df s, s ∈ completed ∧ fetched' s = Some df)
    (omap fetched' completed) (filter (λ s, is_Some (fetched' s)) completed).
Proof.
  induction completed as [|s l IH]; [constructor|].
  assert (IH' : Forall2 (λ df s0, s0 ∈ s :: l ∧ fetched' s0 = Some df)
                  (omap fetched' l) (filter (λ s, is_Some (fetched' s)) l)).
  { eapply Forall2_impl; [exact IH|]. intros df s0 [Hin Hf]. split; [by right|done]. }
  rewrite filter_cons. cbn [omap list_omap].
  destruct (fetched' s) as [df|] eqn:E.
  - rewrite decide_True by eauto. constructor; [|exact IH']. split; [by left|done].
  - rewrite decide_False by (by intros [? ?]). exact IH'.
Qed.

Lemma fetch_log_length s : (length (fetch_log' s) ≤ 1)%nat.
Proof.
  unfold fetch_log. destruct get_data as [df|e]; [destruct (empty df)|]; simpl; lia.
Qed.

(** X5: when the loop ends, [dfs] and [successful_series] have the same
    length and the table at a position is the non-empty table [get_data]
    returned for the series named at that position; the names are taken in
    completion order from the submitted series; and the loop has logged at
    most one line for each fetch. *)
Theorem X5_tables_and_names_stay_aligned completed :
  let st := collect is_number DataFrame_of_other requests_get completed in
  Forall2 (λ df series_name,
             ∃ series_id, (series_id, series_name) ∈ completed ∧
               get_data' series_id series_name API_KEY = Return df ∧ empty df = false)
    (dfs st) (successful_series st) ∧
  successful_series st `sublist_of` (snd <$> completed) ∧
  (length (log st) ≤ length completed)%nat.
Proof.
  intros st. subst st. rewrite collect_spec. cbn [dfs successful_series log].
  split; [|split].
  - apply Forall2_fmap_r.
    eapply Forall2_impl; [apply collected_aligned|].
    intros df [id name] [Hin Hf]; simpl in *.
    apply fetched_Some in Hf as [Hget Hne]. eauto.
  - apply fmap_sublist, sublist_filter.
  - induction completed as [|s l IH]; simpl; [lia|].
    rewrite length_app. pose proof (fetch_log_length s). lia.
Qed.


(** ** The merged table in general *)

(** A table [merge] returns comes from a joined table all of whose labels
    are read as dates. *)
Lemma merge_Return_inv frames m :
  merge' frames = Return m →
  ∃ j, concat_axis1_outer frames = Return j ∧
    Forall (λ l, is_Some (to_datetime (index j) l)) (index j) ∧
    m = mkDataFrame
          (select_labels (columns_order (columns j)) (without_realtime (columns j)))
          (sort_rows ((λ r : row cell,
                         (timestamp_of (to_datetime (index j)) (fst r),
                          merged_cells (columns j) (snd r)))
                      <$> rows j)).
Proof.
  intros Hm. destruct (concat_axis1_outer frames) as [j|e] eqn:Hj.
  2:{ by rewrite (merge_concat_Raise _ _ Hj) in Hm. }
  destruct (datetime_labels_dec (to_datetime (index j)) (index j)) as [Hall|Hex].
  2:{ by rewrite (merge_datetime_Raise _ _ Hj Hex) in Hm. }
  rewrite (merge_Return _ _ Hj Hall) in Hm. injection Hm as <-. eauto.
Qed.

(** X6: whatever the collected tables are, a merged table is in ascending
    order of date. *)
Theorem X6_merged_table_is_sorted frames m :
  merge to_datetime frames = Return m → Sorted ts_le (index m).
Proof.
  intros (j & _ & _ & ->)%merge_Return_inv. cbn [index rows].
  apply (Sorted_fmap fst row_le ts_le); [done|]. apply sort_rows_Sorted.
Qed.

Lemma select_cells_labels order (cells : list (string * cell)) :
  (select_cells order cells).*1 = select_labels order cells.*1.
Proof.
  statement_only.
  unfold select_cells, select_labels.
  induction order as [|n order IH]; [done|]. simpl.
  rewrite fmap_app, IH. f_equal.
  by apply (labels_filter (λ c, c = n)).
Qed.

Lemma merged_cells_labels cols (cells : list (string * cell)) :
  (merged_cells cols cells).*1
  = select_labels (columns_order cols) (without_realtime cells.*1).
Proof.
  statement_only.
  unfold merged_cells. rewrite select_cells_labels. f_equal.
  by apply (labels_filter (λ c, negb (startswith c "realtime") = true)).
Qed.

Lemma concat_axis1_outer_consistent {L} `{EqDecision L} (frames : list (DataFrame L)) j :
  Forall consistent frames → concat_axis1_outer frames = Return j → consistent j.
Proof.
  statement_only.
  intros Hcons Hj. destruct frames as [|df0 others]; [done|].
  unfold concat_axis1_outer in Hj. unfold consistent.
  case_bool_decide; [|case_bool_decide; [|done]]; injection Hj as <-.
  - unfold join_by_position. cbn [rows columns].
    apply Forall_lookup. intros i r. rewrite list_lookup_imap.
    destruct (rows df0 !! i) as [r0|]; [|done]. intros [= <-]. cbn [snd].
    apply (joined_labels (df0 :: others) (cells_at_position i)).
    eapply Forall_impl; [exact Hcons|].
    intros df Hdf. by apply cells_at_position_labels.
  - unfold join_by_label. cbn [rows columns].
    apply Forall_fmap, Forall_forall. intros lbl _. cbn [snd].
    apply (joined_labels (df0 :: others) (cells_of_label lbl)).
    eapply Forall_impl; [exact Hcons|].
    intros df Hdf. by apply cells_of_label_labels.
Qed.

(** X7: when every collected table has, on each row, exactly the cells of
    its header, so has the merged table. *)
Theorem X7_merge_keeps_rows_and_header_aligned frames m :
  Forall consistent frames →
  merge to_datetime frames = Return m →
  consistent m.
Proof.
  intros Hcons (j & Hj & _ & ->)%merge_Return_inv.
  pose proof (concat_axis1_outer_consistent _ _ Hcons Hj) as Hcj.
  unfold consistent in *. cbn [rows columns].
  rewrite sort_rows_Permutation. apply Forall_fmap.
  eapply Forall_impl; [exact Hcj|]. intros r Hr. unfold compose. cbn [snd].
  by rewrite merged_cells_labels, Hr.
Qed.

Lemma date_labels_same_index (df0 : DataFrame cell) others l :
  Forall (λ df, index df = index df0) others →
  l ∈ date_labels (df0 :: others) ↔ l ∈ index df0.
Proof.
  statement_only.
  intros Hsame. rewrite date_labels_elem_of. split.
  - intros (df & [->|Hdf]%elem_of_cons & Hl); [done|].
    rewrite Forall_forall in Hsame. by rewrite <- (Hsame df Hdf).
  - intros Hl. exists df0. split; [by left|done].
Qed.

(** The dates of a merged table, up to their order. *)
Lemma merge_index frames m :
  merge' frames = Return m →
  Forall (λ l, is_Some (to_datetime (joined_index frames) l)) (joined_index frames) ∧
  index m ≡ₚ timestamp_of (to_datetime (joined_index frames)) <$> joined_index frames.
Proof.
  intros (j & Hj & Hall & ->)%merge_Return_inv.
  rewrite <- (concat_axis1_outer_joined_index _ _ Hj). split; [done|].
  unfold index at 1. cbn [rows]. rewrite sort_rows_Permutation.
  rewrite <- list_fmap_compose. unfold index. by rewrite <- list_fmap_compose.
Qed.

Lemma joined_index_elem_of (frames : list (DataFrame cell)) l :
  l ∈ joined_index frames ↔ l ∈ date_labels frames.
Proof.
  statement_only.
  destruct frames as [|df0 others]; [done|]. unfold joined_index.
  case_bool_decide as Hsame.
  - symmetry. by apply date_labels_same_index.
  - apply elem_of_unique.
Qed.

(** X8: for tables whose date labels are strings, [merge] returns a table
    exactly when at least one table was collected, the tables all have the
    same index or none of them repeats a date, and every label of the
    joined index is read as a date there; it never fails on the selection
    of the configured columns. *)
Theorem X8_merge_returns_iff (frames : list (DataFrame cell)) :
  string_labels (date_labels frames) →
  (∃ m, merge to_datetime frames = Return m) ↔
  frames ≠ [] ∧
  (same_index frames ∨ Forall (λ df, NoDup (index df)) frames) ∧
  Forall (λ l, is_Some (to_datetime (joined_index frames) l)) (joined_index frames).
Proof.
  intros _. split.
  - intros (m & Hm).
    destruct (merge_index _ _ Hm) as [Hall _].
    apply merge_Return_inv in Hm as (j & Hj & _ & _).
    destruct frames as [|df0 others]; [done|]. split; [done|]. split; [|done].
    unfold concat_axis1_outer in Hj.
    case_bool_decide as Hsame; [|case_bool_decide as Hnd; [|done]].
    + left. exact (proj1 (same_index_iff df0 others) Hsame).
    + by right.
  - intros (Hne & Hcase & Hall).
    assert (Hj : ∃ j, concat_axis1_outer frames = Return j).
    { destruct frames as [|df0 others]; [done|]. unfold concat_axis1_outer.
      case_bool_decide as Hsame; [eauto|].
      destruct Hcase as [Hsame'|Hnd].
      - destruct Hsame. exact (proj2 (same_index_iff df0 others) Hsame').
      - rewrite bool_decide_true by done. eauto. }
    destruct Hj as [j Hj]. eexists. apply (merge_Return _ _ Hj).
    by rewrite (concat_axis1_outer_joined_index _ _ Hj).
Qed.

(** X10: when all the collected tables have the same index, the merged
    table has one row for each row of that index, a date that the index
    repeats being repeated as often in the merged table. *)
Theorem X10_same_index_keeps_every_row (df0 : DataFrame cell) others m :
  same_index (df0 :: others) →
  merge to_datetime (df0 :: others) = Return m →
  index m ≡ₚ timestamp_of (to_datetime (index df0)) <$> index df0 ∧
  length (rows m) = length (rows df0).
Proof.
  intros Hsame0 Hm.
  pose proof (proj2 (same_index_iff df0 others) Hsame0) as Hsame.
  destruct (merge_index _ _ Hm) as [_ Hidx].
  assert (HJ : joined_index (df0 :: others) = index df0).
  { unfold joined_index. by rewrite bool_decide_true. }
  rewrite HJ in Hidx. split; [exact Hidx|].
  apply Permutation_length in Hidx. unfold index in Hidx.
  by rewrite !length_fmap in Hidx.
Qed.

(** ** Runs that stop in the join *)

(** X9: when the collected tables do not all have the same index and one
    of them repeats a date, [pd.concat] cannot reindex it: the run ends with
    an [InvalidIndexError] before anything is written. *)
Theorem X9_repeated_date_stops_the_run completed fs :
  let frames := dfs (collect is_number DataFrame_of_other requests_get completed) in
  ¬ same_index frames →
  Exists (λ df, ¬ NoDup (index df)) frames →
  main' completed fs
    = Raise (InvalidIndexError "Reindexing only valid with uniquely valued Index objects").
Proof.
  intros frames Hdiff Hdup. unfold main. fold frames.
  rewrite (merge_concat_Raise frames
             (InvalidIndexError "Reindexing only valid with uniquely valued Index objects"));
    [done|].
  destruct frames as [|df0 others].
  - destruct Hdiff. by intros a b ?%elem_of_nil.
  - unfold concat_axis1_outer. rewrite bool_decide_false.
    + rewrite bool_decide_false; [done|].
      intros Hnd. apply Exists_exists in Hdup as (df & Hdf & Hdup).
      rewrite Forall_forall in Hnd. by apply Hdup, Hnd.
    + intros Hsame. apply Hdiff. exact (proj1 (same_index_iff df0 others) Hsame).
Qed.

(** ** Running twice *)

(** X11: on the files a run has left, a second run over the same responses
    that completes in the same order leaves the same files. *)
Theorem X11_second_run_changes_nothing completed fs fs' :
  main is_number to_datetime to_csv DataFrame_of_other requests_get completed fs = Return fs' →
  main' completed fs' = Return fs'.
Proof.
  unfold main. destruct (merge' _) as [m|e]; simpl; [|done].
  destruct (save_data to_csv m "economic_indicators.csv" fs) as [fs1|e] eqn:Hsave;
    simpl; [|done].
  intros [= <-]. apply save_data_Return in Hsave as [Hdir ->].
  rewrite save_data_no_file.
  2:{ rewrite cleanup_lookup. case_decide; [done|].
      rewrite lookup_insert_ne; [done|]. by vm_compute. }
  simpl. f_equal. apply map_eq. intros p.
  rewrite !cleanup_lookup. case_decide as Hp; [done|].
  destruct (decide (p = path_join OUTPUT_DIR "economic_indicators.csv")) as [->|Hne].
  - by rewrite !lookup_insert_eq.
  - rewrite !lookup_insert_ne by done.
    rewrite cleanup_lookup, decide_False by done.
    by rewrite lookup_insert_ne by done.
Qed.


(** ** The configured series on answers in FRED's schema *)

Lemma series_names_not_fields :
  Forall (λ n, n ≠ "date" ∧ n ≠ "value" ∧ startswith n "realtime" = false) series_names.
Proof. apply (bool_decide_unpack _). by vm_compute. Qed.

(** The display name of a configured series is no field of a FRED
    observation, so the answer is well formed for it. *)
Lemma fred_well_formed series recs :
  series ∈ SERIES_IDS →
  decodes_to (requests_get (observations_url (fst series) API_KEY)) recs →
  recs ≠ [] →
  Forall (λ r : record, is_Some (dict_get "date" r) ∧ is_Some (dict_get "value" r)) recs →
  fred_fields recs →
  well_formed_response (snd series) (requests_get (observations_url (fst series) API_KEY)) recs.
Proof.
  intros Hs Hdec Hne Hdv Hfields.
  pose proof series_names_not_fields as Hnames. rewrite Forall_forall in Hnames.
  destruct (Hnames (snd series)) as (Hnd & Hnv & Hres).
  { unfold series_names. by apply list_elem_of_fmap_2. }
  split; try done.
  apply Forall_forall. intros r Hr. apply dict_get_None.
  unfold fred_fields in Hfields. rewrite Forall_forall in Hfields.
  specialize (Hfields r Hr). rewrite Forall_forall in Hfields.
  intros Hin. destruct (Hfields _ Hin) as [?|[?|Hrt]]; [done|done|].
  by rewrite Hrt in Hres.
Qed.

(** On a well-formed response with the fields of a FRED observation, the
    table has the one column of the series and its rows have that one
    cell. *)
Lemma get_data_fred_table series_id series_name api_key recs :
  well_formed_response series_name
    (requests_get (observations_url series_id api_key)) recs →
  fred_fields recs →
  ∃ df, get_data' series_id series_name api_key = Return df ∧
    columns df = [series_name] ∧ consistent df.
Proof.
  intros Hwf Hfields.
  destruct (well_formed_columns _ _ _ Hwf) as (Hdate & Hvalue & Hname).
  destruct (get_data_well_formed _ _ _ _ Hwf) as (df & Hget & Hcols & _ & Hcons & _).
  exists df. split; [done|]. split; [|done].
  rewrite Hcols. unfold without_realtime.
  set (cols := unique (concat (record_keys <$> recs))) in *.
  set (ren := rename_label "value" series_name).
  rewrite (filter_fmap ren (λ c, c ≠ "date")).
  rewrite (filter_fmap ren (λ c, negb (startswith c "realtime") = true)).
  rewrite list_filter_filter.
  rewrite (filter_ext_in _ (λ c, c = "value")).
  - rewrite filter_eq_NoDup; [|apply NoDup_unique|done].
    simpl. unfold ren, rename_label. by rewrite bool_decide_true.
  - intros c Hc.
    assert (c = "date" ∨ c = "value" ∨ startswith c "realtime" = true) as Hkind.
    { apply elem_of_unique, elem_of_concat in Hc as (ks & Hc & (r & -> & Hr)%list_elem_of_fmap).
      unfold fred_fields in Hfields. rewrite Forall_forall in Hfields.
      specialize (Hfields r Hr). rewrite Forall_forall in Hfields. by apply Hfields. }
    assert (Hres : startswith series_name "realtime" = false) by apply Hwf.
    unfold ren, rename_label. case_bool_decide as Hv.
    + subst c. rewrite Hres. split; [done|]. intros _. split; [done|]. by intros ->.
    + split; [|done]. intros [Hkeep Hnd].
      destruct Hkind as [->|[->|Hrt]]; [done|done|]. by rewrite Hrt in Hkeep.
Qed.

(** X13: for a configured series, an answer in FRED's schema with pairwise
    distinct dates and at least one number makes the dispatcher collect a
    Series Table of the data model: the one column of the series, no date
    twice, and the observations with a number as its rows. *)
Theorem X13_fred_answer_gives_a_series_table series recs :
  series ∈ SERIES_IDS →
  decodes_to (requests_get (observations_url (fst series) API_KEY)) recs →
  Forall (λ r : record, is_Some (dict_get "date" r) ∧ is_Some (dict_get "value" r)) recs →
  fred_fields recs →
  NoDup (dict_get "date" <$> recs) →
  Exists (λ r : record, numeric_notna is_number (dict_get "value" r) = true) recs →
  ∃ df, fetched' series = Some df ∧
    series_table (snd series) df ∧
    (λ r : row cell, (fst r, cell_at (snd series) r)) <$> rows df
      = (λ r : record, (dict_get "date" r, dict_get "value" r))
          <$> filter (λ r : record, numeric_notna is_number (dict_get "value" r) = true) recs.
Proof.
  intros Hs Hdec Hdv Hfields Hnodup Hnum.
  assert (Hne : recs ≠ []) by (intros ->; by apply Exists_nil in Hnum).
  pose proof (fred_well_formed _ _ Hs Hdec Hne Hdv Hfields) as Hwf.
  destruct (get_data_well_formed _ _ _ _ Hwf) as (df & Hget & _ & _ & _ & Hrows).
  destruct (get_data_fred_table _ _ _ _ Hwf Hfields) as (df' & Hget' & Hcols & Hcons).
  assert (df' = df) as -> by congruence.
  exists df. split; [|split; [split|]]; try done.
  - apply fetched_Some. split; [done|].
    unfold empty. rewrite Hcols.
    destruct (rows df) eqn:Hr; [|done]. exfalso.
    simpl in Hrows. symmetry in Hrows. apply fmap_nil_inv in Hrows.
    apply Exists_exists in Hnum as (r & Hr1 & Hr2).
    assert (r ∈ filter (λ r : record, numeric_notna is_number (dict_get "value" r) = true) recs)
      as Hin by (by apply list_elem_of_filter).
    rewrite Hrows in Hin. by apply elem_of_nil in Hin.
  - rewrite (index_well_formed _ _ _ _ _ Hwf Hget).
    eapply sublist_NoDup; [exact Hnodup|]. apply fmap_sublist, sublist_filter.
Qed.

(** The columns of the collected tables, when each has the one column of
    its series. *)
Lemma collected_columns (completed : list (string * string)) :
  Forall (λ s, ∀ df, fetched' s = Some df → columns df = [snd s]) completed →
  concat (columns <$> omap fetched' completed)
  = snd <$> filter (λ s, is_Some (fetched' s)) completed.
Proof.
  induction 1 as [|s l Hs _ IH]; [done|].
  rewrite filter_cons. cbn [omap list_omap].
  destruct (fetched' s) as [df|] eqn:E.
  - rewrite decide_True by eauto. rewrite !fmap_cons. simpl.
    by rewrite (Hs df eq_refl), IH.
  - rewrite decide_False by (by intros [? ?]). exact IH.
Qed.

(** The table collected for a configured series answered in FRED's
    schema. *)
Lemma fetched_fred_table s df :
  s ∈ SERIES_IDS →
  fred_answer (requests_get (observations_url (fst s) API_KEY)) →
  fetched' s = Some df →
  columns df = [snd s] ∧ consistent df.
Proof.
  intros Hs (recs & Hdec & Hne & Hdv & Hfields) Hf.
  pose proof (fred_well_formed _ _ Hs Hdec Hne Hdv Hfields) as Hwf.
  destruct (get_data_fred_table _ _ _ _ Hwf Hfields) as (df' & Hget' & Hcols & Hcons).
  apply fetched_Some in Hf as [Hget _].
  assert (df' = df) as -> by congruence. done.
Qed.

Lemma fetched_fred_tables completed :
  completed ≡ₚ SERIES_IDS →
  Forall (λ s, fetched' s = None ∨
               fred_answer (requests_get (observations_url (fst s) API_KEY))) SERIES_IDS →
  Forall (λ s, ∀ df, fetched' s = Some df → columns df = [snd s] ∧ consistent df) completed.
Proof.
  intros Hperm Hans. rewrite Hperm. rewrite Forall_forall in Hans |- *. intros s Hs df Hf.
  destruct (Hans s Hs) as [Hnone|Hfred]; [congruence|].
  by apply fetched_fred_table.
Qed.

Lemma collected_columns_NoDup completed :
  completed ≡ₚ SERIES_IDS →
  Forall (λ s, ∀ df, fetched' s = Some df → columns df = [snd s] ∧ consistent df) completed →
  NoDup (concat (columns <$> omap fetched' completed)).
Proof.
  intros Hperm Htab. rewrite collected_columns.
  - eapply sublist_NoDup; [|apply fmap_sublist, sublist_filter].
    assert (snd <$> completed ≡ₚ series_names) as -> by (unfold series_names; by rewrite Hperm).
    apply series_names_NoDup.
  - eapply Forall_impl; [exact Htab|]. intros s Hs df Hf. by apply Hs.
Qed.

(** C5, amended: the header of the merged table lists the configured
    display names in configured order, each as often as the collected
    tables carry it, and the cells of every row stand in the order of the
    header; the header is the same for every order in which the tables were
    collected.  When no label occurs twice among the collected tables, the
    header is exactly the configured names present, each once; this is the
    case when every series was answered in FRED's schema, the header then
    being the names of the successful series in configured order. *)
Theorem C5_columns_follow_configured_order (frames : list (DataFrame cell)) m :
  merge' frames = Return m →
  columns m ⊆ series_names ∧
  columns m
    = flat_map (λ n, filter (λ c, c = n) (concat (columns <$> frames))) series_names ∧
  (Forall consistent frames → Forall (λ r : row Timestamp, (snd r).*1 = columns m) (rows m)) ∧
  (∀ frames' m', frames' ≡ₚ frames → merge' frames' = Return m' → columns m' = columns m) ∧
  (NoDup (concat (columns <$> frames)) →
     columns m = filter (λ n, n ∈ concat (columns <$> frames)) series_names) ∧
  (∀ names, Forall2 (λ n df, columns df = [n]) names frames → NoDup names →
     columns m = filter (λ n, n ∈ names) series_names) ∧
  (∀ completed,
     completed ≡ₚ SERIES_IDS →
     frames = dfs (collect is_number DataFrame_of_other requests_get completed) →
     Forall (λ s, fetched' s = None ∨
                  fred_answer (requests_get (observations_url (fst s) API_KEY))) SERIES_IDS →
     columns m = filter (λ n, n ∈ successful_series (collect' completed)) series_names).
Proof.
  intros Hm.
  pose proof (merge_columns _ _ Hm) as Hcols.
  rewrite select_labels_configured in Hcols.
  assert (Hunique : NoDup (concat (columns <$> frames)) →
            columns m = filter (λ n, n ∈ concat (columns <$> frames)) series_names).
  { intros Hnodup. rewrite Hcols. by apply flat_map_filter_NoDup. }
  split; [|split; [done|split; [|split; [|split; [done|split]]]]].
  - rewrite Hcols. intros c (n & Hn & [-> _]%list_elem_of_filter)%elem_of_flat_map. done.
  - intros Hcons. apply merge_Return_inv in Hm as (j & Hj & _ & ->).
    pose proof (concat_axis1_outer_consistent _ _ Hcons Hj) as Hcj.
    unfold consistent in Hcj. cbn [rows columns].
    rewrite sort_rows_Permutation. apply Forall_fmap.
    eapply Forall_impl; [exact Hcj|]. intros r Hr. unfold compose. cbn [snd].
    by rewrite merged_cells_labels, Hr.
  - intros frames' m' Hperm Hm'.
    pose proof (merge_columns _ _ Hm') as Hcols'.
    rewrite select_labels_configured in Hcols'. rewrite Hcols, Hcols'.
    apply flat_map_ext_in, Forall_forall. intros n _.
    apply filter_eq_Permutation, concat_Permutation. by rewrite Hperm.
  - intros names Hnames Hnodup.
    rewrite (concat_columns_names _ _ Hnames) in Hunique. by apply Hunique.
  - intros completed Hperm -> Hans. rewrite collect_spec in *. cbn [dfs successful_series] in *.
    pose proof (fetched_fred_tables _ Hperm Hans) as Htab.
    rewrite Hunique by (by apply collected_columns_NoDup).
    rewrite collected_columns; [done|].
    eapply Forall_impl; [exact Htab|]. intros s Hs df Hf. by apply Hs.
Qed.

(** X14: when every configured series either contributes no table or was
    answered in FRED's schema, the date labels are read in the same way in
    whatever order they stand in the index, and distinct date labels are
    never read as the same date, what a run leaves does not depend on the
    order in which the fetches complete. *)
Theorem X14_fred_answers_make_order_irrelevant completed1 completed2 fs :
  completed1 ≡ₚ SERIES_IDS →
  completed2 ≡ₚ SERIES_IDS →
  Forall (λ s, fetched is_number DataFrame_of_other requests_get s = None ∨
               fred_answer (requests_get (observations_url (fst s) API_KEY))) SERIES_IDS →
  order_blind to_datetime (date_labels (omap fetched' completed1)) →
  distinct_dates (to_datetime (joined_index (omap fetched' completed1)))
    (date_labels (omap fetched' completed1)) →
  main' completed1 fs = main' completed2 fs.
Proof.
  intros H1 H2 Hans Hblind Hdist.
  pose proof (fetched_fred_tables _ H1 Hans) as Htab.
  apply main_Permutation; try done.
  - etrans; [exact H1|]. by symmetry.
  - apply Forall_forall. intros df Hdf.
    apply list_elem_of_omap in Hdf as (s & Hs & Hf).
    rewrite Forall_forall in Htab. by apply (Htab s Hs df).
  - by apply collected_columns_NoDup.
Qed.

(** ** A single collected table *)

Lemma columns_order_single n :
  n ∈ series_names → columns_order [n] = [n].
Proof.
  statement_only.
  intros Hn. unfold columns_order, without_realtime.
  pose proof series_names_not_reserved as Hres. rewrite Forall_forall in Hres.
  rewrite (filter_ext_in _ (λ c, c = n)).
  - apply filter_eq_NoDup; [apply series_names_NoDup|done].
  - intros c Hc. rewrite list_elem_of_filter, list_elem_of_singleton.
    split; [by intros [_ ?]|]. intros ->. by rewrite (Hres n Hn).
Qed.

Lemma merged_cells_single n (cells : list (string * cell)) :
  n ∈ series_names → cells.*1 = [n] → merged_cells [n] cells = cells.
Proof.
  statement_only.
  intros Hn Hcells. unfold merged_cells. rewrite columns_order_single by done.
  pose proof series_names_not_reserved as Hres. rewrite Forall_forall in Hres.
  destruct cells as [|[k v] [|? ?]]; try done.
  injection Hcells as ->.
  rewrite filter_cons_True by (simpl; by rewrite (Hres n Hn)).
  unfold select_cells. simpl. rewrite filter_cons_True by done. done.
Qed.

(** X15: when a single table was collected, with the one column of a
    configured series, the merged table has that column and the rows of
    the table, each with its label read as a date and its cell unchanged,
    in ascending order of date; a date the table repeats is repeated. *)
Theorem X15_single_table_is_only_sorted n (df : DataFrame cell) :
  n ∈ series_names →
  columns df = [n] →
  consistent df →
  Forall (λ l, is_Some (to_datetime (index df) l)) (index df) →
  ∃ m, merge to_datetime [df] = Return m ∧
    columns m = [n] ∧
    rows m ≡ₚ stamped_rows (to_datetime (index df)) df ∧
    Sorted ts_le (index m).
Proof.
  intros Hn Hcols Hcons Hparse.
  assert (Hj : concat_axis1_outer [df] = Return (join_by_position df [df])).
  { unfold concat_axis1_outer. by rewrite bool_decide_true. }
  eexists. split.
  { apply (merge_Return _ _ Hj). by rewrite index_join_by_position. }
  rewrite (index_join_by_position df [df]).
  set (read := to_datetime (index df)).
  unfold join_by_position. cbn [columns rows fmap list_fmap concat].
  rewrite app_nil_r, Hcols, columns_order_single by done.
  split; [|split].
  - unfold select_labels, without_realtime.
    pose proof series_names_not_reserved as Hres. rewrite Forall_forall in Hres.
    simpl. rewrite filter_cons_True by (by rewrite (Hres n Hn)).
    rewrite filter_nil. rewrite filter_cons_True by done. done.
  - rewrite sort_rows_Permutation.
    match goal with |- ?A ≡ₚ ?B => assert (A = B) as ->; [|done] end.
    unfold stamped_rows. apply list_eq. intros i.
    rewrite !list_lookup_fmap, list_lookup_imap.
    destruct (rows df !! i) as [r|] eqn:Hr; [|done]. simpl. f_equal. f_equal.
    unfold cells_at_position. rewrite Hr, app_nil_r.
    apply merged_cells_single; [done|].
    unfold consistent in Hcons. rewrite Forall_lookup in Hcons.
    by rewrite (Hcons i r Hr).
  - unfold index. cbn [rows].
    apply (Sorted_fmap fst row_le ts_le); [done|]. apply sort_rows_Sorted.
Qed.

(** ** The dates of the merged table *)

(** X12: the dates of a merged table are the dates the labels of the
    collected tables are read as on the joined index: the merge adds no
    date and loses none. *)
Theorem X12_merged_dates_are_the_collected_dates frames m t :
  merge to_datetime frames = Return m →
  t ∈ index m ↔
  ∃ l, l ∈ date_labels frames ∧ to_datetime (joined_index frames) l = Some t.
Proof.
  intros Hm. destruct (merge_index _ _ Hm) as [Hall Hidx].
  rewrite Hidx, list_elem_of_fmap. rewrite Forall_forall in Hall. split.
  - intros (l & -> & Hl). exists l.
    split; [by apply joined_index_elem_of|]. by apply timestamp_of_is_Some, Hall.
  - intros (l & Hl & Ht). exists l.
    split; [symmetry; by apply timestamp_of_Some|]. by apply joined_index_elem_of.
Qed.

(** ** Runs that end normally *)

Lemma cleanup_keeps_output completed fs :
  completed ≡ₚ SERIES_IDS →
  cleanup (successful_series (collect' completed)) fs !! output_file = fs !! output_file.
Proof.
  intros Hperm. rewrite cleanup_lookup. case_decide as Hin; [|done]. exfalso.
  apply list_elem_of_fmap in Hin as (name & Heq & Hname).
  apply (successful_series_configured _ _ Hperm) in Hname as (s & Hs & <- & _).
  pose proof output_file_not_series_file as Hne.
  rewrite Forall_forall in Hne. apply (Hne (snd s)); [|done].
  unfold series_names. apply list_elem_of_fmap. eauto.
Qed.

(** X16: when every configured series either contributes no table or was
    answered in FRED's schema with pairwise distinct dates, at least one
    series contributes a table, every date label is read as a date on the
    joined index, no regular file stands in the place of the output
    directory and no directory in the place of the output file or of a
    per-series file, the run ends normally and leaves the merged table in
    the output file. *)
Theorem X16_run_ends_normally completed fs :
  completed ≡ₚ SERIES_IDS →
  Forall (λ s, fetched is_number DataFrame_of_other requests_get s = None ∨
               ∃ recs, decodes_to (requests_get (observations_url (fst s) API_KEY)) recs ∧
                 recs ≠ [] ∧
                 Forall (λ r : record, is_Some (dict_get "date" r) ∧ is_Some (dict_get "value" r))
                   recs ∧
                 fred_fields recs ∧
                 NoDup (dict_get "date" <$> recs)) SERIES_IDS →
  Exists (λ s, is_Some (fetched' s)) SERIES_IDS →
  Forall (λ l, is_Some (to_datetime (joined_index (omap fetched' completed)) l))
    (date_labels (omap fetched' completed)) →
  fs !! OUTPUT_DIR = None →
  no_file_under (output_file :: (series_file <$> series_names)) fs →
  ∃ m fs', merge' (omap fetched' completed) = Return m ∧
    main' completed fs = Return fs' ∧
    fs' !! output_file = Some (to_csv m).
Proof.
  intros Hperm Hans Hsome Hparse Hdir _.
  assert (Hdfs : dfs (collect' completed) = omap fetched' completed) by (by rewrite collect_spec).
  assert (Hne : omap fetched' completed ≠ []).
  { apply Exists_exists in Hsome as (s & Hs & [df Hdf]).
    intros Hnil.
    assert (df ∈ omap fetched' completed) as Hin.
    { apply list_elem_of_omap. exists s. split; [by rewrite Hperm|done]. }
    rewrite Hnil in Hin. by apply elem_of_nil in Hin. }
  assert (Hnd : Forall (λ df, NoDup (index df)) (omap fetched' completed)).
  { apply Forall_forall. intros df (s & Hs & Hf)%list_elem_of_omap.
    rewrite Hperm in Hs. rewrite Forall_forall in Hans.
    destruct (Hans s Hs) as [Hnone|(recs & Hdec & Hne' & Hdv & Hfields & Hnodup)]; [congruence|].
    pose proof (fred_well_formed _ _ Hs Hdec Hne' Hdv Hfields) as Hwf.
    apply fetched_Some in Hf as [Hget _].
    rewrite (index_well_formed _ _ _ _ _ Hwf Hget).
    eapply sublist_NoDup; [exact Hnodup|]. apply fmap_sublist, sublist_filter. }
  rewrite (joined_index_NoDup _ Hne Hnd) in Hparse.
  pose proof (merge_series_tables _ Hne Hnd Hparse) as Hm.
  eexists. eexists. split; [exact Hm|].
  unfold main. rewrite Hdfs, Hm. simpl.
  rewrite save_data_no_file by done. simpl. split; [reflexivity|].
  rewrite cleanup_keeps_output by done.
  fold output_file. apply lookup_insert_eq.
Qed.

End Facts.

(** * The statements on concrete runs *)

(** The fetcher on three observations, one without a number. *)
Example get_data_unrate :
  get_data is_number_decimal DataFrame_of_other_refused network_unrate
    "UNRATE" "unemployment Ratio" API_KEY
  = Return (mkDataFrame ["unemployment Ratio"]
      [(Some (PyStr "2020-01-01"), [("unemployment Ratio", Some (PyStr "3.5"))]);
       (Some (PyStr "2020-03-01"), [("unemployment Ratio", Some (PyStr "4.4"))])]).
Proof. vm_compute. reflexivity. Qed.

(** The tables collected when two series are answered and the second
    completes first. *)
Example collect_two_series :
  dfs (collect is_number_decimal DataFrame_of_other_refused network_two_series completed_m2_first)
  = [table_m2; table_unrate].
Proof. vm_compute. reflexivity. Qed.

(** Two series on disjoint dates: four rows, one value on each. *)
Example merge_two_tables :
  merge to_datetime_iso [table_m2; table_unrate] = Return merged_two_tables.
Proof. vm_compute. reflexivity. Qed.

Example main_two_series :
  written_output
    (main is_number_decimal to_datetime_iso to_csv_text DataFrame_of_other_refused
       network_two_series completed_m2_first ∅)
  = Some (csv_line ["date"; "unemployment Ratio"; "M2"]
          +:+ csv_line ["2020-01-01"; "3.5"; ""]
          +:+ csv_line ["2020-01-02"; "3.6"; ""]
          +:+ csv_line ["2020-01-03"; ""; "15000"]
          +:+ csv_line ["2020-01-04"; ""; "15100"]).
Proof. vm_compute. reflexivity. Qed.

(** The order with [M2SL] first is an order of the same fetches. *)
Lemma completed_m2_first_Permutation : completed_m2_first ≡ₚ SERIES_IDS.
Proof.
  unfold completed_m2_first.
  change SERIES_IDS with (take 8 SERIES_IDS ++ ("M2SL", "M2") :: drop 9 SERIES_IDS) at 3.
  apply Permutation_middle.
Qed.

(** The response with the three observations is well formed. *)
Lemma well_formed_unrate :
  well_formed_response "unemployment Ratio"
    (network_unrate (observations_url "UNRATE" API_KEY)) unrate_records.
Proof.
  split.
  - eexists _, _, _. split; [vm_compute; reflexivity|].
    split; [simpl; lia|]. split; [reflexivity|]. split; vm_compute; reflexivity.
  - discriminate.
  - apply (bool_decide_unpack _). vm_compute. reflexivity.
  - apply (bool_decide_unpack _). vm_compute. reflexivity.
  - vm_compute. reflexivity.
Defined.

(** C1 with the network down: no table is collected and [main] raises. *)
Lemma C1_network_down_raises :
  dfs (collect is_number_decimal DataFrame_of_other_refused network_down SERIES_IDS) = [] ∧
  main is_number_decimal to_datetime_iso to_csv_text DataFrame_of_other_refused
    network_down SERIES_IDS files_before
  = Raise (ValueError "No objects to concatenate").
Proof.
  apply C1_no_series_succeeds_raises.
  apply Forall_forall. intros s _. vm_compute. reflexivity.
Defined.

(** C2 fails on a response without the [observations] field: [get_data]
    raises to its caller, it does not return an empty table. *)
Lemma C2_missing_observations_raises :
  get_data is_number_decimal DataFrame_of_other_refused network_no_observations
    "UNRATE" "unemployment Ratio" API_KEY
  = Raise (KeyError "observations").
Proof. vm_compute. reflexivity. Qed.

(** C2 as amended, on a response with status 500 and on a response without
    the [observations] field. *)
Lemma C2_status_500_and_missing_field :
  get_data is_number_decimal DataFrame_of_other_refused network_500
    "UNRATE" "unemployment Ratio" API_KEY = Return empty_DataFrame ∧
  get_data is_number_decimal DataFrame_of_other_refused network_no_observations
    "UNRATE" "unemployment Ratio" API_KEY = Raise (KeyError "observations").
Proof.
  split.
  - apply (C2_request_failures_give_empty_table is_number_decimal
             DataFrame_of_other_refused network_500 "UNRATE" "unemployment Ratio" API_KEY).
    eapply http_error_status; [reflexivity|simpl; lia].
  - eapply (proj2 (C2_request_failures_give_empty_table is_number_decimal
             DataFrame_of_other_refused network_no_observations
             "UNRATE" "unemployment Ratio" API_KEY)).
    + vm_compute. reflexivity.
    + simpl. lia.
    + reflexivity.
    + vm_compute. reflexivity.
Defined.

(** C3 on the three observations. *)
Lemma C3_unrate_rows :
  ∃ df, get_data is_number_decimal DataFrame_of_other_refused network_unrate
          "UNRATE" "unemployment Ratio" API_KEY = Return df ∧
    "unemployment Ratio" ∈ columns df ∧
    (λ r : row cell, (fst r, cell_at "unemployment Ratio" r)) <$> rows df
      = (λ r : record, (dict_get "date" r, dict_get "value" r))
          <$> filter (λ r : record, numeric_notna is_number_decimal (dict_get "value" r) = true)
                unrate_records.
Proof.
  apply C3_rows_kept_iff_numeric. apply well_formed_unrate.
Defined.

(** C7 fails on a response that repeats a date: the table has the date
    twice. *)
Lemma C7_repeated_date_is_kept :
  ∃ df, get_data is_number_decimal DataFrame_of_other_refused network_repeated_date
          "UNRATE" "unemployment Ratio" API_KEY = Return df ∧
    index df = [Some (PyStr "2020-01-01"); Some (PyStr "2020-01-01")] ∧
    ¬ NoDup (index df).
Proof.
  eexists. split; [vm_compute; reflexivity|]. split; [reflexivity|].
  intros Hnodup. apply NoDup_cons in Hnodup as [Hnot _]. apply Hnot. left.
Qed.

(** C7 as amended, on the three observations. *)
Lemma C7_unrate_dates :
  ∃ df, get_data is_number_decimal DataFrame_of_other_refused network_unrate
          "UNRATE" "unemployment Ratio" API_KEY = Return df ∧
    index df = dict_get "date"
      <$> filter (λ r : record, numeric_notna is_number_decimal (dict_get "value" r) = true)
            unrate_records ∧
    (NoDup (index df) ↔
     NoDup (dict_get "date"
              <$> filter (λ r : record,
                            numeric_notna is_number_decimal (dict_get "value" r) = true)
                    unrate_records)) ∧
    (NoDup (dict_get "date" <$> unrate_records) → NoDup (index df)).
Proof.
  apply C7_distinct_dates_stay_distinct.
  apply well_formed_unrate.
Defined.


(** Every series is answered in FRED's schema, with distinct dates, or
    contributes no table. *)
Lemma fred_answers_two_series :
  Forall (λ s, fetched is_number_decimal DataFrame_of_other_refused network_two_series s = None ∨
               ∃ recs, decodes_to (network_two_series (observations_url (fst s) API_KEY)) recs ∧
                 recs ≠ [] ∧
                 Forall (λ r : record, is_Some (dict_get "date" r) ∧ is_Some (dict_get "value" r))
                   recs ∧
                 fred_fields recs ∧
                 NoDup (dict_get "date" <$> recs)) SERIES_IDS.
Proof.
  repeat (apply Forall_cons; split;
    [first [ left; vm_compute; reflexivity
           | right; eexists; split;
             [ eexists _, _, _; split; [vm_compute; reflexivity|];
               split; [simpl; lia|]; split; [reflexivity|]; split; vm_compute; reflexivity
             | split; [discriminate|];
               split; [apply (bool_decide_unpack _); vm_compute; reflexivity|];
               split; apply (bool_decide_unpack _); vm_compute; reflexivity ] ]
    |]).
  apply Forall_nil_2.
Defined.

Lemma fred_schema_two_series :
  Forall (λ s, fetched is_number_decimal DataFrame_of_other_refused network_two_series s = None ∨
               fred_answer (network_two_series (observations_url (fst s) API_KEY))) SERIES_IDS.
Proof.
  eapply Forall_impl; [apply fred_answers_two_series|].
  intros s [Hnone|(recs & Hdec & Hne & Hdv & Hfields & _)]; [by left|right].
  exists recs. done.
Defined.

(** C5 fails when an observation carries a field named as another series is
    displayed: the header has that name twice, which the configured order
    restricted to the columns present has not. *)
Lemma C5_shared_label_repeats_a_column :
  ∃ m, merge to_datetime_iso
         (dfs (collect is_number_decimal DataFrame_of_other_refused network_shared_label
                 SERIES_IDS)) = Return m ∧
    columns m = ["unemployment Ratio"; "M2"; "M2"] ∧
    columns m ≠ filter (λ n, n ∈ columns m) series_names.
Proof.
  eexists. split; [vm_compute; reflexivity|]. split; [reflexivity|].
  intros Heq. vm_compute in Heq. discriminate.
Qed.

(** C5 as amended, on the two tables collected when the second series
    completes first: the header is the two display names in configured
    order, the cells of the rows follow it, and it is the same when the
    tables are collected in the other order. *)
Lemma C5_two_tables_columns :
  columns merged_two_tables ⊆ series_names ∧
  Forall (λ r : row Timestamp, (snd r).*1 = columns merged_two_tables)
    (rows merged_two_tables) ∧
  (∀ m', merge to_datetime_iso [table_unrate; table_m2] = Return m' →
         columns m' = columns merged_two_tables) ∧
  columns merged_two_tables
    = filter (λ n, n ∈ ["M2"; "unemployment Ratio"]) series_names ∧
  columns merged_two_tables
    = filter (λ n, n ∈ successful_series
                         (collect is_number_decimal DataFrame_of_other_refused
                            network_two_series completed_m2_first)) series_names.
Proof.
  destruct (C5_columns_follow_configured_order is_number_decimal to_datetime_iso
              DataFrame_of_other_refused network_two_series
              [table_m2; table_unrate] merged_two_tables)
    as (Hsub & _ & Hrows & Horder & _ & Hnames & Hrun).
  { vm_compute. reflexivity. }
  split; [exact Hsub|]. split; [|split; [|split]].
  - apply Hrows. vm_compute. repeat constructor.
  - intros m' Hm'. apply (Horder [table_unrate; table_m2]); [apply Permutation_swap|exact Hm'].
  - apply Hnames.
    + repeat constructor.
    + apply (bool_decide_unpack _). vm_compute. reflexivity.
  - apply Hrun.
    + apply completed_m2_first_Permutation.
    + vm_compute. reflexivity.
    + apply fred_schema_two_series.
Defined.


(** C8 fails when an observation carries a field named as another series is
    displayed: the two columns under that name come out in the order the
    fetches completed. *)
Lemma C8_shared_label_depends_on_order :
  completed_m2_first ≡ₚ SERIES_IDS ∧
  written_output
    (main is_number_decimal to_datetime_iso to_csv_text DataFrame_of_other_refused
       network_shared_label SERIES_IDS ∅)
  = Some (csv_line ["date"; "unemployment Ratio"; "M2"; "M2"]
          +:+ csv_line ["2020-01-01"; "3.5"; "7"; "15000"]) ∧
  written_output
    (main is_number_decimal to_datetime_iso to_csv_text DataFrame_of_other_refused
       network_shared_label completed_m2_first ∅)
  = Some (csv_line ["date"; "unemployment Ratio"; "M2"; "M2"]
          +:+ csv_line ["2020-01-01"; "3.5"; "15000"; "7"]) ∧
  main is_number_decimal to_datetime_iso to_csv_text DataFrame_of_other_refused
    network_shared_label SERIES_IDS ∅
  ≠ main is_number_decimal to_datetime_iso to_csv_text DataFrame_of_other_refused
      network_shared_label completed_m2_first ∅.
Proof.
  split; [apply completed_m2_first_Permutation|].
  split; [vm_compute; reflexivity|]. split; [vm_compute; reflexivity|].
  intros Heq. apply (f_equal written_output) in Heq. vm_compute in Heq. discriminate.
Qed.

(** C8 as amended, on two series answered on different dates. *)
Lemma C8_two_series_any_order :
  main is_number_decimal to_datetime_iso to_csv_text DataFrame_of_other_refused
    network_two_series SERIES_IDS files_before
  = main is_number_decimal to_datetime_iso to_csv_text DataFrame_of_other_refused
      network_two_series completed_m2_first files_before.
Proof.
  apply C8_output_independent_of_completion_order.
  - reflexivity.
  - apply completed_m2_first_Permutation.
  - vm_compute. repeat constructor.
  - apply (bool_decide_unpack _). vm_compute. reflexivity.
  - intros idx idx' l _ _ _. reflexivity.
  - apply distinct_dates_NoDup. apply (bool_decide_unpack _). vm_compute. reflexivity.
Defined.


(** What the run over the unemployment rate alone leaves of the files of an
    earlier run. *)
Example main_unrate_files :
  files_at ["economic_indicators_data/unemployment Ratio.csv";
            "economic_indicators_data/M2.csv"; "notes.txt";
            "economic_indicators_data/economic_indicators.csv"]
    (main is_number_decimal to_datetime_iso to_csv_text DataFrame_of_other_refused
       network_unrate SERIES_IDS files_before)
  = Some [None; Some "stale"; Some "keep";
          Some (csv_line ["date"; "unemployment Ratio"]
                +:+ csv_line ["2020-01-01"; "3.5"] +:+ csv_line ["2020-03-01"; "4.4"])].
Proof. vm_compute. reflexivity. Qed.

(** One fetch raises, one succeeds, the others come back empty: the error
    is logged, the table of the series that succeeded is merged and
    written. *)
Example main_one_fetch_raises :
  log (collect is_number_decimal DataFrame_of_other_refused network_mixed SERIES_IDS)
    = [LogError "unemployment Ratio" (KeyError "observations"); LogInfo "M2"] ∧
  successful_series (collect is_number_decimal DataFrame_of_other_refused network_mixed SERIES_IDS)
    = ["M2"] ∧
  written_output
    (main is_number_decimal to_datetime_iso to_csv_text DataFrame_of_other_refused
       network_mixed SERIES_IDS ∅)
    = Some (csv_line ["date"; "M2"]
            +:+ csv_line ["2020-01-03"; "15000"] +:+ csv_line ["2020-01-04"; "15100"]).
Proof. repeat split; vm_compute; reflexivity. Qed.

(** Dates written with the year last: when the fetch that ends first has
    the date that can only be read day first, the dates are read day first
    and the run writes its file; when the other fetch ends first, the dates
    are read month first and the run raises on the thirteenth month. *)
Example main_reads_dates_by_the_first_label :
  written_output
    (main is_number_decimal to_datetime_guess to_csv_text DataFrame_of_other_refused
       network_ambiguous_dates SERIES_IDS ∅)
    = Some (csv_line ["date"; "unemployment Ratio"; "M2"]
            +:+ csv_line ["2000-01-12"; ""; "15000"]
            +:+ csv_line ["2000-01-13"; "3.5"; ""]) ∧
  main is_number_decimal to_datetime_guess to_csv_text DataFrame_of_other_refused
    network_ambiguous_dates completed_m2_first ∅
    = Raise (ValueError "Unknown datetime string format").
Proof. split; vm_compute; reflexivity. Qed.

(** A regular file in the place of the output directory: [os.makedirs]
    raises and nothing is written. *)
Example main_output_directory_is_a_file :
  main is_number_decimal to_datetime_iso to_csv_text DataFrame_of_other_refused
    network_unrate SERIES_IDS {[ "economic_indicators_data" := "not a directory" ]}
  = Raise (OSError "FileExistsError").
Proof. vm_compute. reflexivity. Qed.

(** An empty [observations] array has no [date] column to index by:
    [get_data] raises. *)
Example get_data_no_rows :
  get_data is_number_decimal DataFrame_of_other_refused network_no_rows
    "UNRATE" "unemployment Ratio" API_KEY
  = Raise (KeyError "date").
Proof. vm_compute. reflexivity. Qed.


(** ** The further statements on concrete runs *)

(** X1 on the three observations of the unemployment rate. *)
Lemma X1_unrate_table_shape :
  ∃ df, get_data is_number_decimal DataFrame_of_other_refused network_unrate
          "UNRATE" "unemployment Ratio" API_KEY = Return df ∧
    (df = empty_DataFrame ∨
     (count_label "unemployment Ratio" (columns df) = 1 ∧
      ("date" ∉ columns df) ∧
      Forall (λ r : row cell,
                numeric_notna is_number_decimal (cell_at "unemployment Ratio" r) = true)
        (rows df))).
Proof.
  eexists. split; [vm_compute; reflexivity|].
  apply (X1_returned_table_shape is_number_decimal DataFrame_of_other_refused network_unrate
           "UNRATE" "unemployment Ratio" API_KEY).
  - vm_compute. reflexivity.
  - vm_compute. reflexivity.
Defined.

(** The answers of the examples decode to their records. *)
Lemma decodes_to_no_dates :
  decodes_to (network_no_dates (observations_url "UNRATE" API_KEY)) no_date_records.
Proof.
  eexists _, _, _. split; [vm_compute; reflexivity|].
  split; [simpl; lia|]. split; [reflexivity|]. split; vm_compute; reflexivity.
Defined.

Lemma decodes_to_no_values :
  decodes_to (network_no_values (observations_url "UNRATE" API_KEY)) no_value_records.
Proof.
  eexists _, _, _. split; [vm_compute; reflexivity|].
  split; [simpl; lia|]. split; [reflexivity|]. split; vm_compute; reflexivity.
Defined.

(** X2 on observations without a [date] field. *)
Lemma X2_no_dates_raises :
  get_data is_number_decimal DataFrame_of_other_refused network_no_dates
    "UNRATE" "unemployment Ratio" API_KEY
  = Raise (KeyError "date").
Proof.
  apply (X2_no_date_field_raises is_number_decimal DataFrame_of_other_refused network_no_dates
           "UNRATE" "unemployment Ratio" API_KEY no_date_records).
  - apply decodes_to_no_dates.
  - apply (bool_decide_unpack _). vm_compute. reflexivity.
  - discriminate.
Defined.

(** X3 on observations without a [value] field. *)
Lemma X3_no_values_raises :
  get_data is_number_decimal DataFrame_of_other_refused network_no_values
    "UNRATE" "unemployment Ratio" API_KEY
  = Raise (KeyError "unemployment Ratio").
Proof.
  apply (X3_no_value_field_raises is_number_decimal DataFrame_of_other_refused network_no_values
           "UNRATE" "unemployment Ratio" API_KEY no_value_records).
  - apply decodes_to_no_values.
  - apply Exists_cons_hd. vm_compute. eauto.
  - apply (bool_decide_unpack _). vm_compute. reflexivity.
  - apply (bool_decide_unpack _). vm_compute. reflexivity.
Defined.

(** The response whose values are all missing is well formed. *)
Lemma well_formed_no_numbers :
  well_formed_response "unemployment Ratio"
    (network_no_numbers (observations_url "UNRATE" API_KEY)) no_number_records.
Proof.
  split.
  - eexists _, _, _. split; [vm_compute; reflexivity|].
    split; [simpl; lia|]. split; [reflexivity|]. split; vm_compute; reflexivity.
  - discriminate.
  - apply (bool_decide_unpack _). vm_compute. reflexivity.
  - apply (bool_decide_unpack _). vm_compute. reflexivity.
  - vm_compute. reflexivity.
Defined.

(** X4 on two observations whose value is a period. *)
Lemma X4_no_numbers_dropped :
  (∃ df, get_data is_number_decimal DataFrame_of_other_refused network_no_numbers
           "UNRATE" "unemployment Ratio" API_KEY = Return df ∧
         "unemployment Ratio" ∈ columns df ∧ rows df = []) ∧
  fetched is_number_decimal DataFrame_of_other_refused network_no_numbers
    ("UNRATE", "unemployment Ratio") = None ∧
  fetch_log is_number_decimal DataFrame_of_other_refused network_no_numbers
    ("UNRATE", "unemployment Ratio") = [] ∧
  collect_one is_number_decimal DataFrame_of_other_refused network_no_numbers
    (mkCollected [] [] []) ("UNRATE", "unemployment Ratio") = mkCollected [] [] [].
Proof.
  apply (X4_series_without_numbers_is_dropped is_number_decimal DataFrame_of_other_refused
           network_no_numbers "UNRATE" "unemployment Ratio" no_number_records).
  - apply well_formed_no_numbers.
  - apply (bool_decide_unpack _). vm_compute. reflexivity.
Defined.

(** X6 on the table that repeats a date, out of date order. *)
Lemma X6_repeated_table_sorted : Sorted ts_le (index merged_repeated).
Proof.
  apply (X6_merged_table_is_sorted to_datetime_iso [table_repeated]).
  vm_compute. reflexivity.
Defined.

(** X7 on the two tables. *)
Lemma X7_two_tables_aligned : consistent merged_two_tables.
Proof.
  apply (X7_merge_keeps_rows_and_header_aligned to_datetime_iso [table_m2; table_unrate]).
  - vm_compute. repeat constructor.
  - vm_compute. reflexivity.
Defined.

(** The tables collected when the unemployment rate repeats a date. *)
Lemma collect_repeated_date_and_m2 :
  dfs (collect is_number_decimal DataFrame_of_other_refused network_repeated_date_and_m2
         SERIES_IDS)
  = [table_unrate_repeated; table_m2_single].
Proof. vm_compute. reflexivity. Defined.

(** X9 on the run in which the unemployment rate repeats a date. *)
Lemma X9_repeated_date_run_raises :
  main is_number_decimal to_datetime_iso to_csv_text DataFrame_of_other_refused
    network_repeated_date_and_m2 SERIES_IDS files_before
  = Raise (InvalidIndexError "Reindexing only valid with uniquely valued Index objects").
Proof.
  apply (X9_repeated_date_stops_the_run is_number_decimal to_datetime_iso to_csv_text
           DataFrame_of_other_refused network_repeated_date_and_m2 SERIES_IDS files_before).
  - rewrite collect_repeated_date_and_m2. intros Hsame.
    assert (index table_unrate_repeated = index table_m2_single) as Heq.
    { apply Hsame; [left|right; left]. }
    vm_compute in Heq. discriminate.
  - rewrite collect_repeated_date_and_m2. apply Exists_cons_hd.
    intros Hnodup. apply NoDup_cons in Hnodup as [Hnot _]. apply Hnot. left.
Defined.

(** X10 on the table that repeats a date: three rows, the date twice. *)
Lemma X10_repeated_table_rows :
  index merged_repeated
    ≡ₚ timestamp_of (to_datetime_iso (index table_repeated)) <$> index table_repeated ∧
  length (rows merged_repeated) = length (rows table_repeated).
Proof.
  apply (X10_same_index_keeps_every_row to_datetime_iso table_repeated []).
  - intros a b Ha%list_elem_of_singleton Hb%list_elem_of_singleton. by subst.
  - vm_compute. reflexivity.
Defined.

(** X11 on the run that fetches the unemployment rate alone. *)
Lemma X11_unrate_second_run :
  main is_number_decimal to_datetime_iso to_csv_text DataFrame_of_other_refused
    network_unrate SERIES_IDS files_after_unrate
  = Return files_after_unrate.
Proof.
  apply (X11_second_run_changes_nothing is_number_decimal to_datetime_iso to_csv_text
           DataFrame_of_other_refused network_unrate SERIES_IDS files_before).
  vm_compute. reflexivity.
Defined.

(** X12 on the two tables and the first of January. *)
Lemma X12_two_tables_first_date :
  Stamp 1577836800000000000 ∈ index merged_two_tables ↔
  ∃ l, l ∈ date_labels [table_m2; table_unrate] ∧
       to_datetime_iso (joined_index [table_m2; table_unrate]) l
         = Some (Stamp 1577836800000000000).
Proof.
  apply (X12_merged_dates_are_the_collected_dates to_datetime_iso [table_m2; table_unrate]).
  vm_compute. reflexivity.
Defined.

(** X13 on the three observations of the unemployment rate. *)
Lemma X13_unrate_series_table :
  ∃ df, fetched is_number_decimal DataFrame_of_other_refused network_unrate
          ("UNRATE", "unemployment Ratio") = Some df ∧
    series_table "unemployment Ratio" df ∧
    (λ r : row cell, (fst r, cell_at "unemployment Ratio" r)) <$> rows df
      = (λ r : record, (dict_get "date" r, dict_get "value" r))
          <$> filter (λ r : record, numeric_notna is_number_decimal (dict_get "value" r) = true)
                unrate_records.
Proof.
  apply (X13_fred_answer_gives_a_series_table is_number_decimal DataFrame_of_other_refused
           network_unrate ("UNRATE", "unemployment Ratio") unrate_records).
  - left.
  - apply well_formed_unrate.
  - apply (bool_decide_unpack _). vm_compute. reflexivity.
  - apply (bool_decide_unpack _). vm_compute. reflexivity.
  - apply (bool_decide_unpack _). vm_compute. reflexivity.
  - apply Exists_cons_hd. vm_compute. reflexivity.
Defined.

(** X14 on two series answered on different dates. *)
Lemma X14_two_series_any_order :
  main is_number_decimal to_datetime_iso to_csv_text DataFrame_of_other_refused
    network_two_series SERIES_IDS files_before
  = main is_number_decimal to_datetime_iso to_csv_text DataFrame_of_other_refused
      network_two_series completed_m2_first files_before.
Proof.
  apply X14_fred_answers_make_order_irrelevant.
  - reflexivity.
  - apply completed_m2_first_Permutation.
  - apply fred_schema_two_series.
  - intros idx idx' l _ _ _. reflexivity.
  - apply distinct_dates_NoDup. apply (bool_decide_unpack _). vm_compute. reflexivity.
Defined.

(** X15 on the table that repeats a date. *)
Lemma X15_repeated_table_sorted :
  ∃ m, merge to_datetime_iso [table_repeated] = Return m ∧
    columns m = ["unemployment Ratio"] ∧
    rows m ≡ₚ stamped_rows (to_datetime_iso (index table_repeated)) table_repeated ∧
    Sorted ts_le (index m).
Proof.
  apply X15_single_table_is_only_sorted.
  - apply (bool_decide_unpack _). vm_compute. reflexivity.
  - reflexivity.
  - vm_compute. repeat constructor.
  - apply (bool_decide_unpack _). vm_compute. reflexivity.
Defined.

(** X16 on two series answered on different dates. *)
Lemma X16_two_series_run_ends :
  ∃ m fs', merge to_datetime_iso
             (omap (fetched is_number_decimal DataFrame_of_other_refused network_two_series)
                SERIES_IDS) = Return m ∧
    main is_number_decimal to_datetime_iso to_csv_text DataFrame_of_other_refused
      network_two_series SERIES_IDS files_before = Return fs' ∧
    fs' !! output_file = Some (to_csv_text m).
Proof.
  apply X16_run_ends_normally.
  - reflexivity.
  - apply fred_answers_two_series.
  - apply Exists_cons_hd. vm_compute. eauto.
  - apply (bool_decide_unpack _). vm_compute. reflexivity.
  - reflexivity.
  - apply (bool_decide_unpack _). vm_compute. reflexivity.
Defined.

(** X8 on the two tables: they are merged, and the three conditions
    hold. *)
Lemma X8_two_tables_merge_returns :
  (∃ m, merge to_datetime_iso [table_m2; table_unrate] = Return m) ↔
  [table_m2; table_unrate] ≠ [] ∧
  (same_index [table_m2; table_unrate] ∨
   Forall (λ df, NoDup (index df)) [table_m2; table_unrate]) ∧
  Forall (λ l, is_Some (to_datetime_iso (joined_index [table_m2; table_unrate]) l))
    (joined_index [table_m2; table_unrate]).
Proof.
  apply X8_merge_returns_iff.
  vm_compute. repeat constructor; eauto.
Defined.
